(** * Session handling of the attendance front end

    A shallow embedding of the parts of the front end that carry the
    authenticated-session protocol:

    - [authSlice]   : store/slices/authSlice.ts, the Redux slice;
    - [Middleware]  : middleware.ts, the route guard;
    - [ApiService1] : the axios wrapper that exports the named instance
                      [apiService] (the one the endpoint layer imports);
    - [ApiService2] : the second axios wrapper, built around [request].

    JavaScript values that the code only passes along (response bodies,
    returned result objects, thrown values) are kept untyped, as [JsVal];
    the browser globals the code touches ([localStorage], [window.location],
    the toast queue) are an explicit [World] threaded through every call.
    Console logging and the guard's path matcher are left out. *)

From Stdlib Require Import ZArith String Ascii List Bool.
From stdpp Require Import gmap strings pretty.
From Stdlib Require Import Lia Sorted Permutation.
Import ListNotations.
Local Open Scope string_scope.
Local Open Scope Z_scope.
Set Warnings "-register-all".

(** ** JavaScript values *)

(** Prototype of an object: a plain object, an [Error], or an [AxiosError]. *)
Inductive Proto := ObjectP | ErrorP | AxiosErrorP.

(** Numbers are restricted to integers: the code only tests them for
    truthiness and compares a status with 401. *)
Inductive JsVal :=
| VUndef
| VNull
| VBool (b : bool)
| VNum (n : Z)
| VStr (s : string)
| VArr (items : list JsVal)
| VObj (proto : Proto) (fields : list (string * JsVal)).

Fixpoint assoc (k : string) (fields : list (string * JsVal)) : option JsVal :=
  match fields with
  | [] => None
  | (k', v) :: rest => if String.eqb k k' then Some v else assoc k rest
  end.

(** [v.k] on a value that is neither [null] nor [undefined]: a missing
    property reads as [undefined]. *)
Definition prop (v : JsVal) (k : string) : JsVal :=
  match v with
  | VObj _ fields => match assoc k fields with Some x => x | None => VUndef end
  | _ => VUndef
  end.

Definition nullish (v : JsVal) : bool :=
  match v with VUndef | VNull => true | _ => false end.

(** [v?.k] *)
Definition opt (v : JsVal) (k : string) : JsVal :=
  if nullish v then VUndef else prop v k.

Definition truthy (v : JsVal) : bool :=
  match v with
  | VUndef | VNull => false
  | VBool b => b
  | VNum n => negb (n =? 0)
  | VStr s => negb (String.eqb s EmptyString)
  | VArr _ | VObj _ _ => true
  end.

(** [a || b] *)
Definition or_else (a b : JsVal) : JsVal := if truthy a then a else b.

(** [v === n] for a number literal [n]. *)
Definition is_num (v : JsVal) (n : Z) : bool :=
  match v with VNum m => m =? n | _ => false end.

Definition has_key (k : string) (v : JsVal) : bool :=
  match v with
  | VObj _ fields => match assoc k fields with Some _ => true | None => false end
  | _ => false
  end.

Definition obj (fields : list (string * JsVal)) : JsVal := VObj ObjectP fields.

(** [e instanceof Error] and [axios.isAxiosError(e)]. *)
Definition instanceof_Error (e : JsVal) : bool :=
  match e with VObj ErrorP _ | VObj AxiosErrorP _ => true | _ => false end.

Definition isAxiosError (e : JsVal) : bool :=
  match e with VObj AxiosErrorP _ => true | _ => false end.

(** ** The browser globals *)

Record Window := {
  localStorage : gmap string string;
  location_href : string
}.

(** [window] is [None] where the module runs outside a browser (server-side
    rendering): there [typeof window] is ['undefined'] and the bare
    identifier [localStorage] raises a [ReferenceError]. *)
Record World := {
  window : option Window;
  toasts : list (string * JsVal)
}.

Definition window_defined (w : World) : bool :=
  match window w with Some _ => true | None => false end.

(** What durable storage holds under [k]; nothing where there is no storage. *)
Definition stored (w : World) (k : string) : option string :=
  match window w with
  | Some win => localStorage win !! k
  | None => None
  end.

Definition location (w : World) : option string :=
  match window w with
  | Some win => Some (location_href win)
  | None => None
  end.

Definition with_storage (f : gmap string string -> gmap string string)
    (w : World) : World :=
  match window w with
  | Some win =>
      {| window := Some {| localStorage := f (localStorage win);
                           location_href := location_href win |};
         toasts := toasts w |}
  | None => w
  end.

Definition with_location (href : string) (w : World) : World :=
  match window w with
  | Some win =>
      {| window := Some {| localStorage := localStorage win;
                           location_href := href |};
         toasts := toasts w |}
  | None => w
  end.

Definition toast (kind : string) (msg : JsVal) (w : World) : World :=
  {| window := window w; toasts := (toasts w ++ [(kind, msg)])%list |}.

Definition browser (storage : gmap string string) (href : string) : World :=
  {| window := Some {| localStorage := storage; location_href := href |};
     toasts := [] |}.

Definition server : World := {| window := None; toasts := [] |}.

(** ** types/api.ts *)

(** [AuthResponse['user']] is a [UserProfile] without the two audit
    timestamps; the slice keeps whichever object it is handed. *)
Record UserProfile := {
  id : string;
  email : string;
  name : string;
  role : string;
  createdAt : option string;
  updatedAt : option string
}.

Record AuthResponse := {
  auth_token : string;
  auth_user : UserProfile
}.

(** ** store/slices/authSlice.ts *)

Module authSlice.

Record AuthState := {
  token : option string;
  user : option UserProfile;
  isAuthenticated : bool;
  loading : bool;
  error : option string
}.

Definition initialState (w : World) : AuthState :=
  {| token := if window_defined w then stored w "auth_token" else None;
     user := None;
     isAuthenticated := false;
     loading := false;
     error := None |}.

(** A reducer takes the draft state and the world and returns both. *)
Definition setCredentials (s : AuthState) (w : World) (payload : AuthResponse)
    : AuthState * World :=
  ({| token := Some (auth_token payload);
      user := Some (auth_user payload);
      isAuthenticated := true;
      loading := loading s;
      error := None |},
   if window_defined w
   then with_storage (insert "auth_token" (auth_token payload)) w
   else w).

Definition setUser (s : AuthState) (w : World) (payload : UserProfile)
    : AuthState * World :=
  ({| token := token s;
      user := Some payload;
      isAuthenticated := isAuthenticated s;
      loading := loading s;
      error := error s |}, w).

Definition setLoading (s : AuthState) (w : World) (payload : bool)
    : AuthState * World :=
  ({| token := token s;
      user := user s;
      isAuthenticated := isAuthenticated s;
      loading := payload;
      error := error s |}, w).

Definition setError (s : AuthState) (w : World) (payload : string)
    : AuthState * World :=
  ({| token := token s;
      user := user s;
      isAuthenticated := isAuthenticated s;
      loading := loading s;
      error := Some payload |}, w).

Definition logout (s : AuthState) (w : World) : AuthState * World :=
  ({| token := None;
      user := None;
      isAuthenticated := false;
      loading := loading s;
      error := None |},
   if window_defined w then with_storage (delete "auth_token") w else w).

Inductive Action :=
| SetCredentials (payload : AuthResponse)
| SetUser (payload : UserProfile)
| SetLoading (payload : bool)
| SetError (payload : string)
| Logout.

Definition reducer (sw : AuthState * World) (a : Action) : AuthState * World :=
  let (s, w) := sw in
  match a with
  | SetCredentials p => setCredentials s w p
  | SetUser p => setUser s w p
  | SetLoading b => setLoading s w b
  | SetError m => setError s w m
  | Logout => logout s w
  end.

(** The store after a sequence of dispatches, starting from the state
    hydrated at module load. *)
Definition dispatch_all (w : World) (acts : list Action) : AuthState * World :=
  fold_left reducer acts (initialState w, w).

Definition is_logout (a : Action) : bool :=
  match a with Logout => true | _ => false end.

(** A [setCredentials] occurs in [acts] with no [logout] after it. *)
Definition credentials_in_force (acts : list Action) : Prop :=
  exists pre payload post,
    acts = (pre ++ SetCredentials payload :: post)%list /\
    forallb (fun a => negb (is_logout a)) post = true.

End authSlice.

(** ** middleware.ts *)

Module Middleware.

Record URL := {
  origin : string;
  pathname : string;
  searchParams : list (string * string)
}.

(** [request.url] is the serialized address; [nextUrl] the same address
    parsed; [cookies] the request's cookie jar, name to value. *)
Record NextRequest := {
  url : string;
  nextUrl : URL;
  cookies : gmap string string
}.

Inductive NextResponse :=
| redirect (target : URL)
| next.

Definition protectedPaths : list string := ["/profile"; "/settings"].

Definition authPaths : list string :=
  ["/auth/login"; "/auth/register"; "/auth/forgot-password"].

(** [pathname === path || pathname.startsWith(`${path}/`)] *)
Definition matches (pathname path : string) : bool :=
  String.eqb pathname path || String.prefix (path ++ "/") pathname.

(** [new URL(path, base)] for an absolute [path]: the base contributes its
    origin only. *)
Definition new_URL (path base_origin : string) : URL :=
  {| origin := base_origin; pathname := path; searchParams := [] |}.

(** [url.searchParams.set(k, v)]: the first entry named [k] takes the value
    and later ones go; without one the pair is appended. *)
Fixpoint drop_key (k : string) (ps : list (string * string)) :=
  match ps with
  | [] => []
  | (k', v') :: rest =>
      if String.eqb k k' then drop_key k rest else (k', v') :: drop_key k rest
  end.

Fixpoint set_param (k v : string) (ps : list (string * string)) :=
  match ps with
  | [] => [(k, v)]
  | (k', v') :: rest =>
      if String.eqb k k' then (k, v) :: drop_key k rest
      else (k', v') :: set_param k v rest
  end.

Definition searchParams_set (k v : string) (u : URL) : URL :=
  {| origin := origin u; pathname := pathname u;
     searchParams := set_param k v (searchParams u) |}.

(** [url.searchParams.get(k)] *)
Fixpoint searchParams_get (k : string) (ps : list (string * string))
    : option string :=
  match ps with
  | [] => None
  | (k', v) :: rest => if String.eqb k k' then Some v else searchParams_get k rest
  end.

(** [encodeURI]: letters, digits and [; / ? : @ & = + $ , - _ . ! ~ * ' ( ) #]
    stay, every other byte of the UTF-8 form becomes [%XX]. *)
Fixpoint mem_char (c : ascii) (s : string) : bool :=
  match s with
  | EmptyString => false
  | String c' rest => Ascii.eqb c c' || mem_char c rest
  end.

Definition uri_unescaped (c : ascii) : bool :=
  let n := N_of_ascii c in
  ((48 <=? n) && (n <=? 57))%N || ((65 <=? n) && (n <=? 90))%N
  || ((97 <=? n) && (n <=? 122))%N
  || mem_char c ";/?:@&=+$,-_.!~*'()#".

Definition hex_digit (n : N) : ascii :=
  match String.get (N.to_nat n) "0123456789ABCDEF" with
  | Some c => c
  | None => "0"%char
  end.

Fixpoint encodeURI (s : string) : string :=
  match s with
  | EmptyString => EmptyString
  | String c rest =>
      if uri_unescaped c then String c (encodeURI rest)
      else String "%" (String (hex_digit (N_of_ascii c / 16))
                      (String (hex_digit (N_of_ascii c mod 16))
                              (encodeURI rest)))
  end.

(** [!token] for [request.cookies.get('auth_token')?.value]. *)
Definition not_token (token : option string) : bool :=
  match token with
  | Some t => String.eqb t EmptyString
  | None => true
  end.

Definition isProtectedPath (pathname : string) : bool :=
  existsb (matches pathname) protectedPaths.

Definition isAuthPath (pathname : string) : bool :=
  existsb (matches pathname) authPaths.

Definition middleware (request : NextRequest) : NextResponse :=
  let pathname := pathname (nextUrl request) in
  let token := cookies request !! "auth_token" in
  if isProtectedPath pathname && not_token token then
    let url0 := new_URL "/auth/login" (origin (nextUrl request)) in
    redirect (searchParams_set "callbackUrl" (encodeURI (url request)) url0)
  else if isAuthPath pathname && negb (not_token token) then
    redirect (new_URL "/dashboard" (origin (nextUrl request)))
  else next.

(** The callback parameter a response carries, if it is a redirect. *)
Definition callbackUrl (r : NextResponse) : option string :=
  match r with
  | redirect u => searchParams_get "callbackUrl" (searchParams u)
  | next => None
  end.

End Middleware.

(** ** Promises with effects *)

(** How an awaited call ends. A rejection carries the thrown value. *)
Inductive Settled (A : Type) :=
| Fulfilled (x : A)
| Rejected (e : JsVal).
Arguments Fulfilled {A} x.
Arguments Rejected {A} e.

(** A computation that may change the globals and ends settled. *)
Definition Eff (A : Type) : Type := World -> World * Settled A.

Definition ret {A} (x : A) : Eff A := fun w => (w, Fulfilled x).

Definition throw {A} (e : JsVal) : Eff A := fun w => (w, Rejected e).

(** [p.then(onFulfilled, onRejected)] *)
Definition then_ {A B} (p : Eff A) (onFulfilled : A -> Eff B)
    (onRejected : JsVal -> Eff B) : Eff B :=
  fun w =>
    match p w with
    | (w', Fulfilled x) => onFulfilled x w'
    | (w', Rejected e) => onRejected e w'
    end.

Definition bind {A B} (p : Eff A) (k : A -> Eff B) : Eff B := then_ p k throw.

(** [try { body } catch (error) { handler }] *)
Definition try_catch {A} (body : Eff A) (handler : JsVal -> Eff A) : Eff A :=
  then_ body ret handler.

Notation "'do' x <- p ; k" := (bind p (fun x => k))
  (at level 10, x name, p at level 100, k at level 200).

Definition error_object (proto : Proto) (name message : string) : JsVal :=
  VObj proto [("name", VStr name); ("message", VStr message)].

(** Reading a property of [null] or [undefined]. *)
Definition type_error_reading (v : JsVal) (k : string) : JsVal :=
  error_object ErrorP "TypeError"
    ("Cannot read properties of "
     ++ (match v with VNull => "null" | _ => "undefined" end)
     ++ " (reading '" ++ k ++ "')").

(** The unguarded globals: outside a browser the identifier is unbound. *)
Definition localStorage_getItem (k : string) : Eff (option string) :=
  fun w =>
    match window w with
    | Some win => (w, Fulfilled (localStorage win !! k))
    | None =>
        (w, Rejected (error_object ErrorP "ReferenceError"
                        "localStorage is not defined"))
    end.

Definition localStorage_removeItem (k : string) : Eff unit :=
  fun w =>
    match window w with
    | Some _ => (with_storage (delete k) w, Fulfilled tt)
    | None =>
        (w, Rejected (error_object ErrorP "ReferenceError"
                        "localStorage is not defined"))
    end.

Definition set_location_href (href : string) : Eff unit :=
  fun w =>
    match window w with
    | Some _ => (with_location href w, Fulfilled tt)
    | None =>
        (w, Rejected (error_object ErrorP "ReferenceError"
                        "window is not defined"))
    end.

Definition toast_success (msg : JsVal) : Eff unit :=
  fun w => (toast "success" msg w, Fulfilled tt).

Definition toast_error (msg : JsVal) : Eff unit :=
  fun w => (toast "error" msg w, Fulfilled tt).

(** ** The axios instance *)

Module Axios.

Inductive Method := GET | POST | PUT | PATCH | DELETE.

(** A caller's [AxiosRequestConfig]; every field is optional. *)
Record AxiosRequestConfig := {
  method : option Method;
  url : option string;
  data : JsVal;
  headers : gmap string string
}.

Definition no_config : AxiosRequestConfig :=
  {| method := None; url := None; data := VUndef; headers := ∅ |}.

Record AxiosResponse := {
  res_data : JsVal;
  status : Z;
  statusText : string;
  res_headers : JsVal
}.

(** What the transport answers for a request as sent: a response with any
    status, or a failure before one arrives. *)
Inductive NetResult :=
| NetResponse (response : AxiosResponse)
| NetFailure (error : JsVal).

Definition response_object (r : AxiosResponse) : JsVal :=
  obj [("data", res_data r); ("status", VNum (status r));
       ("statusText", VStr (statusText r)); ("headers", res_headers r)].

Definition AxiosError (message : string) (response : option AxiosResponse)
    : JsVal :=
  VObj AxiosErrorP
    [("name", VStr "AxiosError"); ("message", VStr message);
     ("response", match response with
                  | Some r => response_object r
                  | None => VUndef
                  end)].

(** The default [validateStatus] and [settle]. *)
Definition validateStatus (s : Z) : bool := (200 <=? s) && (s <? 300).

Definition settle (r : NetResult) : Settled AxiosResponse :=
  match r with
  | NetResponse response =>
      if validateStatus (status response) then Fulfilled response
      else Rejected (AxiosError ("Request failed with status code "
                                 ++ pretty (status response))
                                (Some response))
  | NetFailure e => Rejected e
  end.

(** [mergeConfig(defaults, config)]: the caller's headers win. *)
Definition mergeConfig (defaults : gmap string string)
    (config : AxiosRequestConfig) : AxiosRequestConfig :=
  {| method := Some (match method config with Some m => m | None => GET end);
     url := url config;
     data := data config;
     headers := headers config ∪ defaults |}.

Definition set_header (k v : string) (config : AxiosRequestConfig)
    : AxiosRequestConfig :=
  {| method := method config; url := url config; data := data config;
     headers := <[k := v]> (headers config) |}.

(** [if (token && config.headers) config.headers.Authorization = ...]:
    [config.headers] is always set on the internal config, so the test
    reduces to the token being a non-empty string. *)
Definition bearer (token : option string) (config : AxiosRequestConfig)
    : AxiosRequestConfig :=
  match token with
  | Some t =>
      if truthy (VStr t)
      then set_header "Authorization" ("Bearer " ++ t) config
      else config
  | None => config
  end.

(** A method of a client class, by its parameter list: [(url, config?)]
    or [(url, data?, config?)]. *)
Inductive Member :=
| UrlConfig (f : string -> AxiosRequestConfig -> Eff JsVal)
| UrlDataConfig (f : string -> JsVal -> AxiosRequestConfig -> Eff JsVal).

(** A call [client.m(u, d, config)] for a member taking data, and
    [client.m(u, config)] for one that does not. *)
Definition invoke (f : Member) (u : string) (d : JsVal)
    (config : AxiosRequestConfig) : Eff JsVal :=
  match f with
  | UrlConfig g => g u config
  | UrlDataConfig g => g u d config
  end.

Section Instance.

Variable defaults : gmap string string.
Variable request_fulfilled : AxiosRequestConfig -> Eff AxiosRequestConfig.
Variable request_rejected : JsVal -> Eff AxiosRequestConfig.
Variable response_fulfilled : AxiosResponse -> Eff AxiosResponse.
Variable response_rejected : JsVal -> Eff AxiosResponse.
Variable net : AxiosRequestConfig -> NetResult.

Definition dispatchRequest (config : AxiosRequestConfig) : Eff AxiosResponse :=
  fun w => (w, settle (net config)).

(** [Axios.prototype.request]: the promise chain
    [resolve(config).then(request).then(dispatch).then(response)]. *)
Definition request (config : AxiosRequestConfig) : Eff AxiosResponse :=
  then_ (then_ (then_ (ret (mergeConfig defaults config))
                      request_fulfilled request_rejected)
               dispatchRequest throw)
        response_fulfilled response_rejected.

End Instance.

End Axios.

(** ** The client behind the named export [apiService] *)

Module ApiService1.
Import Axios.

Definition defaultHeaders : gmap string string :=
  {[ "Content-Type" := "application/json" ]}.

(** Request interceptor. *)
Definition request_fulfilled (config : AxiosRequestConfig)
    : Eff AxiosRequestConfig :=
  do token <- localStorage_getItem "token";
  ret (bearer token config).

Definition request_rejected (error : JsVal) : Eff AxiosRequestConfig :=
  do _ <- toast_error (or_else (prop error "message") (VStr "Request failed"));
  throw (obj [("success", VBool false);
              ("error", obj [("message", prop error "message");
                             ("details", error)])]).

(** Response interceptor, success side. *)
Definition wrapped (response : AxiosResponse) : AxiosResponse :=
  {| res_data := obj [("success", VBool true); ("data", res_data response)];
     status := status response;
     statusText := statusText response;
     res_headers := res_headers response |}.

Definition response_fulfilled (response : AxiosResponse) : Eff AxiosResponse :=
  do _ <- (if truthy (opt (res_data response) "message")
           then toast_success (prop (res_data response) "message")
           else ret tt);
  ret (wrapped response).

(** The object the error side rejects with. *)
Definition failure (error : JsVal) : JsVal :=
  let response := prop error "response" in
  let data := opt response "data" in
  obj [("success", VBool false);
       ("error",
        obj [("message", or_else (or_else (opt data "detail")
                                          (opt data "message"))
                                 (prop error "message"));
             ("status", opt response "status");
             ("data", data)])].

(** Response interceptor, error side. Building the log record reads
    [error.config] first, which throws on [null] and [undefined]. *)
Definition response_rejected (error : JsVal) : Eff AxiosResponse :=
  if nullish error then throw (type_error_reading error "config") else
  let response := prop error "response" in
  let status := opt response "status" in
  let data := opt response "data" in
  do _ <- (if is_num status 401 then
             do _ <- localStorage_removeItem "token";
             do _ <- set_location_href "/login";
             toast_error (VStr "Session expired. Please login again.")
           else
             toast_error
               (or_else (or_else (or_else (opt data "detail")
                                          (opt data "message"))
                                 (prop error "message"))
                        (VStr "Something went wrong. Please try again.")));
  throw (failure error).

Section Methods.

Variable net : AxiosRequestConfig -> NetResult.

Definition api_request : AxiosRequestConfig -> Eff AxiosResponse :=
  Axios.request defaultHeaders request_fulfilled request_rejected
    response_fulfilled response_rejected net.

(** [this.api.get(url, config)], [this.api.post(url, data, config)], ...:
    the call's method, url and data are merged over [config]. *)
Definition api (m : Method) (u : string) (d : JsVal)
    (config : AxiosRequestConfig) : Eff AxiosResponse :=
  api_request {| method := Some m; url := Some u; data := d;
                 headers := headers config |}.

Definition get (u : string) (config : AxiosRequestConfig) : Eff JsVal :=
  try_catch (do response <- api GET u (data config) config;
             ret (res_data response))
            (fun error => ret error).

Definition post (u : string) (d : JsVal) (config : AxiosRequestConfig)
    : Eff JsVal :=
  try_catch (do response <- api POST u d config;
             ret (res_data response))
            (fun error => ret error).

Definition put (u : string) (d : JsVal) (config : AxiosRequestConfig)
    : Eff JsVal :=
  try_catch (do response <- api PUT u d config;
             ret (res_data response))
            (fun error => ret error).

Definition delete (u : string) (config : AxiosRequestConfig) : Eff JsVal :=
  try_catch (do response <- api DELETE u (data config) config;
             ret (res_data response))
            (fun error => ret error).

(** The property of the instance named after each HTTP method;
    [None] where the class declares none. *)
Definition member (m : Method) : option Member :=
  match m with
  | GET => Some (UrlConfig get)
  | POST => Some (UrlDataConfig post)
  | PUT => Some (UrlDataConfig put)
  | PATCH => None
  | DELETE => Some (UrlConfig delete)
  end.

End Methods.

End ApiService1.

(** ** The client built around [request] *)

Module ApiService2.
Import Axios.

Definition defaultHeaders : gmap string string :=
  {[ "Content-Type" := "application/json"; "Accept" := "application/json" ]}.

Definition request_fulfilled (config : AxiosRequestConfig)
    : Eff AxiosRequestConfig :=
  fun w =>
    let token := if window_defined w then stored w "auth_token" else None in
    ret (bearer token config) w.

Definition request_rejected (error : JsVal) : Eff AxiosRequestConfig :=
  throw error.

Definition response_fulfilled (response : AxiosResponse) : Eff AxiosResponse :=
  ret response.

Definition response_rejected (error : JsVal) : Eff AxiosResponse :=
  if nullish error then throw (type_error_reading error "response") else
  do _ <- (if is_num (opt (prop error "response") "status") 401 then
             fun w =>
               if window_defined w then
                 (do _ <- localStorage_removeItem "auth_token";
                  set_location_href "/auth/login") w
               else ret tt w
           else ret tt);
  throw error.

(** What [request] returns for a response, *)
Definition success (response : AxiosResponse) : JsVal :=
  obj [("data", res_data response);
       ("status", VNum (status response));
       ("statusText", VStr (statusText response));
       ("headers", res_headers response);
       ("success", VBool true)].

(** and what its [catch] returns for a thrown value. *)
Definition failure (error : JsVal) : JsVal :=
  if isAxiosError error && truthy (prop error "response") then
    let response := prop error "response" in
    obj [("success", VBool false);
         ("status", prop response "status");
         ("statusText", prop response "statusText");
         ("error", prop response "data");
         ("headers", prop response "headers")]
  else
    obj [("success", VBool false);
         ("error",
          obj [("message",
                if instanceof_Error error
                then prop error "message"
                else VStr "Unknown error occurred");
               ("code", VStr "UNKNOWN_ERROR")])].

Section Methods.

Variable net : AxiosRequestConfig -> NetResult.

Definition api_request : AxiosRequestConfig -> Eff AxiosResponse :=
  Axios.request defaultHeaders request_fulfilled request_rejected
    response_fulfilled response_rejected net.

Definition request (config : AxiosRequestConfig) : Eff JsVal :=
  try_catch
    (do response <- api_request config;
     ret (success response))
    (fun error => ret (failure error)).

(** [{ ...config, method, url }] and [{ ...config, method, url, data }] *)
Definition get (u : string) (config : AxiosRequestConfig) : Eff JsVal :=
  request {| method := Some GET; url := Some u; data := data config;
             headers := headers config |}.

Definition post (u : string) (d : JsVal) (config : AxiosRequestConfig)
    : Eff JsVal :=
  request {| method := Some POST; url := Some u; data := d;
             headers := headers config |}.

Definition put (u : string) (d : JsVal) (config : AxiosRequestConfig)
    : Eff JsVal :=
  request {| method := Some PUT; url := Some u; data := d;
             headers := headers config |}.

Definition patch (u : string) (d : JsVal) (config : AxiosRequestConfig)
    : Eff JsVal :=
  request {| method := Some PATCH; url := Some u; data := d;
             headers := headers config |}.

Definition delete (u : string) (config : AxiosRequestConfig) : Eff JsVal :=
  request {| method := Some DELETE; url := Some u; data := data config;
             headers := headers config |}.

Definition member (m : Method) : option Member :=
  match m with
  | GET => Some (UrlConfig get)
  | POST => Some (UrlDataConfig post)
  | PUT => Some (UrlDataConfig put)
  | PATCH => Some (UrlDataConfig patch)
  | DELETE => Some (UrlConfig delete)
  end.

End Methods.

End ApiService2.

(** ** services/endpoints/auth.ts *)

(** [import { apiService } from '../api']: a named import, which only the
    first client module provides (the second exports its instance as the
    default export). *)
Module authApi.
Import Axios.

Section Endpoints.

Variable net : AxiosRequestConfig -> NetResult.

Definition apiService_member : Method -> option Member :=
  ApiService1.member net.

Definition login (data : JsVal) : Eff JsVal :=
  ApiService1.post net "auth/login" data no_config.

Definition signUp (data : JsVal) : Eff JsVal :=
  ApiService1.post net "v1/users" data no_config.

Definition logout : Eff JsVal :=
  ApiService1.post net "auth/logout" VUndef no_config.

Definition getCurrentUser : Eff JsVal :=
  ApiService1.get net "auth/me" no_config.

End Endpoints.

End authApi.

(** ** The result shapes the specification names *)

(** [{success: true, data, status, headers}] *)
Definition success_shape (v : JsVal) : bool :=
  match prop v "success" with
  | VBool true => has_key "data" v && has_key "status" v && has_key "headers" v
  | _ => false
  end.

(** [{success: false, error: {message, code?, status?}}] *)
Definition failure_shape (v : JsVal) : bool :=
  match prop v "success" with
  | VBool false => has_key "message" (prop v "error")
  | _ => false
  end.

Definition normalized (v : JsVal) : bool := success_shape v || failure_shape v.

(** The shapes the first client returns. *)
Definition result1 (v : JsVal) : Prop :=
  (exists body, v = obj [("success", VBool true); ("data", body)]) \/
  (exists message status data,
     v = obj [("success", VBool false);
              ("error", obj [("message", message); ("status", status);
                             ("data", data)])]).

(** The shapes the second client returns. *)
Definition result2 (v : JsVal) : Prop :=
  (exists body status statusText headers,
     v = obj [("data", body); ("status", VNum status);
              ("statusText", VStr statusText); ("headers", headers);
              ("success", VBool true)]) \/
  (exists status statusText body headers,
     v = obj [("success", VBool false); ("status", status);
              ("statusText", statusText); ("error", body);
              ("headers", headers)]) \/
  (exists message,
     v = obj [("success", VBool false);
              ("error", obj [("message", message);
                             ("code", VStr "UNKNOWN_ERROR")])]).

(** No transport failure carries [null] or [undefined] as its reason. *)
Definition reasons_defined (net : Axios.AxiosRequestConfig -> Axios.NetResult)
    : Prop :=
  forall config e, net config = Axios.NetFailure e -> nullish e = false.

Fixpoint all_chars (p : ascii -> bool) (s : string) : bool :=
  match s with
  | EmptyString => true
  | String c rest => p c && all_chars p rest
  end.

(** ** Requests, as sent and as received *)

(** The data a client method sends: its [data] argument where it takes one,
    the config's otherwise. *)
Definition sent_data (m : Axios.Method) (d : JsVal)
    (config : Axios.AxiosRequestConfig) : JsVal :=
  match m with
  | Axios.GET | Axios.DELETE => Axios.data config
  | _ => d
  end.

(** The same request without its session cookie. *)
Definition without_session (request : Middleware.NextRequest)
    : Middleware.NextRequest :=
  {| Middleware.url := Middleware.url request;
     Middleware.nextUrl := Middleware.nextUrl request;
     Middleware.cookies := delete "auth_token" (Middleware.cookies request) |}.

(** ** app/auth/register/page.tsx *)

Module RegisterPage.
Import Axios.

Record FormData := {
  username : string;
  email : string;
  password : string;
  full_name : string;
  confirmPassword : string
}.

(** What [handleSubmit] does besides calling the HTTP client, in order:
    actions handed to the store, the component's [isLoading] flag and
    navigation. Running the actions is the store's part; the [World] a
    handler returns follows the HTTP client only. *)
Inductive Effect :=
| dispatch_setError (payload : JsVal)
| dispatch_setLoading (payload : bool)
| dispatch_setCredentials (payload : JsVal)
| setIsLoading (value : bool)
| router_push (href : string).

(** A handler step: the globals and the effects so far go in and come out,
    with the step's settlement. *)
Definition Page (A : Type) : Type :=
  World * list Effect -> (World * list Effect) * Settled A.

Definition emit (e : Effect) : Page unit :=
  fun st => ((fst st, (snd st ++ [e])%list), Fulfilled tt).

Definition lift {A} (p : Eff A) : Page A :=
  fun st => let (w', r) := p (fst st) in ((w', snd st), r).

Definition pure {A} (x : A) : Page A := fun st => (st, Fulfilled x).

Definition raise {A} (e : JsVal) : Page A := fun st => (st, Rejected e).

Definition and_then {A B} (p : Page A) (k : A -> Page B) : Page B :=
  fun st =>
    match p st with
    | (st', Fulfilled x) => k x st'
    | (st', Rejected e) => (st', Rejected e)
    end.

(** [try { body } catch (error) { handler } finally { cleanup }] *)
Definition try_catch_finally (body : Page unit) (handler : JsVal -> Page unit)
    (cleanup : Page unit) : Page unit :=
  fun st =>
    let (st1, r1) :=
      match body st with
      | (st', Fulfilled x) => (st', Fulfilled x)
      | (st', Rejected e) => handler e st'
      end in
    match cleanup st1 with
    | (st2, Fulfilled _) => (st2, r1)
    | (st2, Rejected e) => (st2, Rejected e)
    end.

(** Reading [v.k] where [v] may be [null] or [undefined]. *)
Definition read (v : JsVal) (k : string) : Page JsVal :=
  if nullish v then raise (type_error_reading v k) else pure (prop v k).

Definition signUp_payload (formData : FormData) : JsVal :=
  obj [("username", VStr (username formData));
       ("email", VStr (email formData));
       ("password", VStr (password formData));
       ("full_name", VStr (full_name formData))].

Section Handler.

Variable net : AxiosRequestConfig -> NetResult.

Definition handleSubmit (formData : FormData) : Page unit :=
  if negb (String.eqb (password formData) (confirmPassword formData)) then
    emit (dispatch_setError (VStr "Passwords do not match"))
  else
    and_then (emit (setIsLoading true)) (fun _ =>
    and_then (emit (dispatch_setLoading true)) (fun _ =>
    try_catch_finally
      (and_then (lift (authApi.signUp net (signUp_payload formData)))
         (fun response =>
          and_then (read response "success") (fun success =>
          if truthy success && truthy (prop response "data") then
            and_then (emit (dispatch_setCredentials (prop response "data")))
              (fun _ => emit (router_push "/auth/login"))
          else
            emit (dispatch_setError
                    (VStr "Registration failed. Please try again.")))))
      (fun error =>
         and_then (read error "response") (fun response =>
         emit (dispatch_setError
                 (or_else (opt (opt response "data") "message")
                          (VStr "Registration failed. Please try again.")))))
      (and_then (emit (setIsLoading false))
                (fun _ => emit (dispatch_setLoading false))))).

End Handler.

End RegisterPage.

(** ** Arrays *)

(** [Array.prototype.sort(compareFn)] is stable: elements that compare equal
    keep their order. For a comparator that orders consistently this fixes
    the result, which insertion from the right produces. *)
Section ArraySort.

Context {A : Type}.
Variable compareFn : A -> A -> Z.

Fixpoint sort_insert (x : A) (sorted : list A) : list A :=
  match sorted with
  | [] => [x]
  | y :: rest =>
      if compareFn x y <=? 0 then x :: y :: rest
      else y :: sort_insert x rest
  end.

Fixpoint array_sort (l : list A) : list A :=
  match l with
  | [] => []
  | x :: rest => sort_insert x (array_sort rest)
  end.

End ArraySort.

(** [array.slice(start, end)] on integer arguments: a negative index counts
    from the end, and both are clamped to the array. *)
Definition clamp_index (len i : Z) : Z :=
  if i <? 0 then Z.max (len + i) 0 else Z.min i len.

Definition array_slice {A} (l : list A) (start stop : Z) : list A :=
  let len := Z.of_nat (length l) in
  let k := clamp_index len start in
  let final := clamp_index len stop in
  firstn (Z.to_nat (final - k)) (skipn (Z.to_nat k) l).

(** ** app/user/leaderboard/page.tsx *)

Module LeaderboardPage.

Record LeaderboardUser := {
  id : string;
  name : string;
  email : string;
  streak : Z;
  checkins : Z;
  events : Z
}.

Definition compareFn (sortBy : string) (a b : LeaderboardUser) : Z :=
  if String.eqb sortBy "streak" then streak b - streak a
  else if String.eqb sortBy "checkins" then checkins b - checkins a
  else if String.eqb sortBy "events" then events b - events a
  else 0.

(** [[...sampleUsers].sort(...)]: the copy is sorted, the sample array is
    left alone. *)
Definition filteredUsers (sampleUsers : list LeaderboardUser) (sortBy : string)
    : list LeaderboardUser :=
  array_sort (compareFn sortBy) sampleUsers.

Definition indexOfLastUser (currentPage rowsPerPage : Z) : Z :=
  currentPage * rowsPerPage.

Definition indexOfFirstUser (currentPage rowsPerPage : Z) : Z :=
  indexOfLastUser currentPage rowsPerPage - rowsPerPage.

Definition currentUsers (users : list LeaderboardUser)
    (currentPage rowsPerPage : Z) : list LeaderboardUser :=
  array_slice users (indexOfFirstUser currentPage rowsPerPage)
    (indexOfLastUser currentPage rowsPerPage).

(** [Math.ceil(length / rowsPerPage)], for a [rowsPerPage] other than 0 (the
    select offers 20, 50 and 100). *)
Definition totalPages (users : list LeaderboardUser) (rowsPerPage : Z) : Z :=
  - ((- Z.of_nat (length users)) / rowsPerPage).

(** The rank shown beside the entry at [index] of the current page. *)
Definition rank (currentPage rowsPerPage index : Z) : Z :=
  indexOfFirstUser currentPage rowsPerPage + index + 1.

(** [Array.from({ length: totalPages }, (_, i) => i + 1)] *)
Definition pageNumbers (total : Z) : list Z :=
  map (fun i => Z.of_nat i + 1) (seq 0 (Z.to_nat total)).

(** The page's two pieces of pagination state and the controls that change
    them. *)
Record Paging := {
  currentPage : Z;
  rowsPerPage : Z
}.

Definition initialPaging : Paging := {| currentPage := 1; rowsPerPage := 20 |}.

Inductive Control :=
| Previous
| Next
| PageButton (page : Z)
| RowsPerPage (value : Z).

(** Whether a control can be used: the pagination bar is rendered for more
    than one page only, [Previous] is disabled on page 1 and [Next] on the
    last page, there is one button per page, and the select has three
    options. *)
Definition enabled (users : list LeaderboardUser) (st : Paging) (c : Control)
    : bool :=
  let total := totalPages users (rowsPerPage st) in
  match c with
  | Previous => (1 <? total) && negb (currentPage st =? 1)
  | Next => (1 <? total) && negb (currentPage st =? total)
  | PageButton page =>
      (1 <? total) && existsb (Z.eqb page) (pageNumbers total)
  | RowsPerPage value => existsb (Z.eqb value) [20; 50; 100]
  end.

Definition click (st : Paging) (c : Control) : Paging :=
  match c with
  | Previous =>
      {| currentPage := currentPage st - 1; rowsPerPage := rowsPerPage st |}
  | Next =>
      {| currentPage := currentPage st + 1; rowsPerPage := rowsPerPage st |}
  | PageButton page =>
      {| currentPage := page; rowsPerPage := rowsPerPage st |}
  | RowsPerPage value =>
      {| currentPage := 1; rowsPerPage := value |}
  end.

(** The paging state after a run of clicks; a click on a control that is
    not enabled does nothing. *)
Definition clicks (users : list LeaderboardUser) (cs : list Control) : Paging :=
  fold_left (fun st c => if enabled users st c then click st c else st)
    cs initialPaging.

(** The field a [sortBy] orders by; every user counts alike under a
    [sortBy] the comparator does not know. *)
Definition metric (sortBy : string) (u : LeaderboardUser) : Z :=
  if String.eqb sortBy "streak" then streak u
  else if String.eqb sortBy "checkins" then checkins u
  else if String.eqb sortBy "events" then events u
  else 0.

End LeaderboardPage.

(** ** The dashboard page *)

Module DashboardPage.

Record SampleEvent := {
  id : string;
  name : string;
  description : string;
  date : string;
  location : string;
  participants : Z;
  isJoined : bool
}.

(** What one render shows and what it leaves in the module-level array:
    [sampleEvents.sort(...)] sorts that array in place, and the "My Events"
    section, rendered after it, reads the array as sorted. *)
Record Rendered := {
  popularEvents : list SampleEvent;
  myEvents : list SampleEvent;
  noEventsMessage : bool;
  sampleEvents : list SampleEvent
}.

Definition render (events : list SampleEvent) : Rendered :=
  let sorted := array_sort (fun a b => participants b - participants a) events in
  {| popularEvents := array_slice sorted 0 3;
     myEvents := array_slice (List.filter isJoined sorted) 0 3;
     noEventsMessage := (length (List.filter isJoined sorted) =? 0)%nat;
     sampleEvents := sorted |}.

End DashboardPage.

(** ** components/LeaderboardEntry.tsx *)

Module LeaderboardEntry.

(** [name.split(' ')] *)
Fixpoint split_spaces (s : string) : list string :=
  match s with
  | EmptyString => [EmptyString]
  | String c rest =>
      if Ascii.eqb c " " then EmptyString :: split_spaces rest
      else match split_spaces rest with
           | word :: words => String c word :: words
           | [] => [String c EmptyString]
           end
  end.

(** [n[0]] as [join('')] renders it: nothing for an empty piece. *)
Definition first_letter (n : string) : string :=
  match n with
  | EmptyString => EmptyString
  | String c _ => String c EmptyString
  end.

(** [toUpperCase()] on a name written in ASCII. *)
Definition upper (c : ascii) : ascii :=
  let n := N_of_ascii c in
  if ((97 <=? n) && (n <=? 122))%N then ascii_of_N (n - 32) else c.

Fixpoint toUpperCase (s : string) : string :=
  match s with
  | EmptyString => EmptyString
  | String c rest => String (upper c) (toUpperCase rest)
  end.

Definition getUserInitials (name : string) : string :=
  toUpperCase (String.concat EmptyString (map first_letter (split_spaces name))).

(** A name written in ASCII: every character is below 128. On such names
    [first_letter] is [n[0]] and [toUpperCase] is the method of the same
    name. *)
Definition ascii_only (name : string) : bool :=
  all_chars (fun c => (N_of_ascii c <? 128)%N) name.

End LeaderboardEntry.

(** ** Sample inputs *)

Definition alice : UserProfile :=
  {| id := "1"; email := "alice@example.com"; name := "Alice"; role := "user";
     createdAt := None; updatedAt := None |}.

Definition stale_state : authSlice.AuthState :=
  {| authSlice.token := Some "old"; authSlice.user := None;
     authSlice.isAuthenticated := false; authSlice.loading := true;
     authSlice.error := Some "Login failed. Please check your credentials." |}.

(** The address [/profile/a b] as a browser sends it. *)
Definition profile_request : Middleware.NextRequest :=
  {| Middleware.url := "http://localhost:3000/profile/a%20b";
     Middleware.nextUrl :=
       {| Middleware.origin := "http://localhost:3000";
          Middleware.pathname := "/profile/a%20b";
          Middleware.searchParams := [] |};
     Middleware.cookies := ∅ |}.

Definition settings_request : Middleware.NextRequest :=
  {| Middleware.url := "http://localhost:3000/settings/account?tab=2";
     Middleware.nextUrl :=
       {| Middleware.origin := "http://localhost:3000";
          Middleware.pathname := "/settings/account";
          Middleware.searchParams := [("tab", "2")] |};
     Middleware.cookies := {[ "theme" := "dark" ]} |}.

(** A login request carrying the session cookie with an empty value. *)
Definition login_request_empty_cookie : Middleware.NextRequest :=
  {| Middleware.url := "http://localhost:3000/auth/login";
     Middleware.nextUrl :=
       {| Middleware.origin := "http://localhost:3000";
          Middleware.pathname := "/auth/login";
          Middleware.searchParams := [] |};
     Middleware.cookies := {[ "auth_token" := EmptyString ]} |}.

Definition register_request : Middleware.NextRequest :=
  {| Middleware.url := "http://localhost:3000/auth/register";
     Middleware.nextUrl :=
       {| Middleware.origin := "http://localhost:3000";
          Middleware.pathname := "/auth/register";
          Middleware.searchParams := [] |};
     Middleware.cookies := {[ "auth_token" := "not-even-a-jwt" ]} |}.

(** Three answers of the back end. *)
Definition unauthorized : Axios.AxiosResponse :=
  {| Axios.res_data := obj [("detail", VStr "Not authenticated")];
     Axios.status := 401;
     Axios.statusText := "Unauthorized";
     Axios.res_headers := obj [("content-type", VStr "application/json")] |}.

Definition current_user : Axios.AxiosResponse :=
  {| Axios.res_data := obj [("id", VStr "1"); ("email", VStr "alice@example.com")];
     Axios.status := 200;
     Axios.statusText := "OK";
     Axios.res_headers := obj [("content-type", VStr "application/json")] |}.

Definition not_found : Axios.AxiosResponse :=
  {| Axios.res_data := obj [("detail", VStr "Not Found")];
     Axios.status := 404;
     Axios.statusText := "Not Found";
     Axios.res_headers := obj [] |}.

Definition answers (r : Axios.AxiosResponse)
    : Axios.AxiosRequestConfig -> Axios.NetResult :=
  fun _ => Axios.NetResponse r.

(** The globals after a successful credential-set in a fresh browser. *)
Definition signed_in : World :=
  snd (authSlice.setCredentials stale_state (browser ∅ "/dashboard")
         {| auth_token := "T"; auth_user := alice |}).

(** A browser whose storage holds a token under the first client's key
    only. *)
Definition legacy_window : Window :=
  {| localStorage := {[ "token" := "legacy" ]}; location_href := "/dashboard" |}.

Definition legacy_browser : World :=
  {| window := Some legacy_window; toasts := [] |}.

Definition fresh_window : Window :=
  {| localStorage := ∅; location_href := "/auth/register" |}.

Definition fresh_browser : World :=
  {| window := Some fresh_window; toasts := [] |}.

(** A transport that cannot reach the back end. *)
Definition offline : Axios.AxiosRequestConfig -> Axios.NetResult :=
  fun _ => Axios.NetFailure (Axios.AxiosError "Network Error" None).

Definition created : Axios.AxiosResponse :=
  {| Axios.res_data :=
       obj [("token", VStr "T");
            ("user", obj [("id", VStr "1"); ("email", VStr "alice@example.com");
                          ("name", VStr "Alice"); ("role", VStr "user")])];
     Axios.status := 201;
     Axios.statusText := "Created";
     Axios.res_headers := obj [("content-type", VStr "application/json")] |}.

Definition alice_form : RegisterPage.FormData :=
  {| RegisterPage.username := "alice";
     RegisterPage.email := "alice@example.com";
     RegisterPage.password := "s3cret";
     RegisterPage.full_name := "Alice Liddell";
     RegisterPage.confirmPassword := "s3cret" |}.

Definition mistyped_form : RegisterPage.FormData :=
  {| RegisterPage.username := "alice";
     RegisterPage.email := "alice@example.com";
     RegisterPage.password := "s3cret";
     RegisterPage.full_name := "Alice Liddell";
     RegisterPage.confirmPassword := "s3cert" |}.

Definition dashboard_request : Middleware.NextRequest :=
  {| Middleware.url := "http://localhost:3000/dashboard";
     Middleware.nextUrl :=
       {| Middleware.origin := "http://localhost:3000";
          Middleware.pathname := "/dashboard";
          Middleware.searchParams := [] |};
     Middleware.cookies := ∅ |}.

Definition profile_request_with_session : Middleware.NextRequest :=
  {| Middleware.url := "http://localhost:3000/profile";
     Middleware.nextUrl :=
       {| Middleware.origin := "http://localhost:3000";
          Middleware.pathname := "/profile";
          Middleware.searchParams := [] |};
     Middleware.cookies := {[ "auth_token" := "T" ]} |}.

Definition login_request_anonymous : Middleware.NextRequest :=
  {| Middleware.url := "http://localhost:3000/auth/login";
     Middleware.nextUrl :=
       {| Middleware.origin := "http://localhost:3000";
          Middleware.pathname := "/auth/login";
          Middleware.searchParams := [] |};
     Middleware.cookies := ∅ |}.

(** The first users and the events of the pages' sample data. *)
Definition three_users : list LeaderboardPage.LeaderboardUser :=
  [ {| LeaderboardPage.id := "2"; LeaderboardPage.name := "Jane Smith";
       LeaderboardPage.email := "jane@example.com";
       LeaderboardPage.streak := 12; LeaderboardPage.checkins := 36;
       LeaderboardPage.events := 6 |};
    {| LeaderboardPage.id := "1"; LeaderboardPage.name := "John Doe";
       LeaderboardPage.email := "john@example.com";
       LeaderboardPage.streak := 15; LeaderboardPage.checkins := 45;
       LeaderboardPage.events := 8 |};
    {| LeaderboardPage.id := "3"; LeaderboardPage.name := "Alex Johnson";
       LeaderboardPage.email := "alex@example.com";
       LeaderboardPage.streak := 10; LeaderboardPage.checkins := 30;
       LeaderboardPage.events := 5 |} ].

Definition event (i n : string) (p : Z) (j : bool) : DashboardPage.SampleEvent :=
  {| DashboardPage.id := i; DashboardPage.name := n;
     DashboardPage.description := EmptyString;
     DashboardPage.date := "2023-12-15";
     DashboardPage.location := "Online";
     DashboardPage.participants := p; DashboardPage.isJoined := j |}.

Definition five_events : list DashboardPage.SampleEvent :=
  [ event "1" "Annual Tech Conference" 120 true;
    event "2" "Web Development Workshop" 85 false;
    event "3" "AI in Healthcare Symposium" 95 true;
    event "4" "Mobile App Design Masterclass" 60 false;
    event "5" "Cybersecurity Summit" 110 false ].

(** * Properties *)

(** ** The slice *)

Section SliceFacts.
Import authSlice.

Lemma stored_insert (w : World) (win : Window) (k v : string) :
  window w = Some win -> stored (with_storage (insert k v) w) k = Some v.
Proof.
  intros Hw. unfold stored, with_storage. rewrite Hw. cbn.
  apply lookup_insert_eq.
Qed.

Lemma stored_delete (w : World) (k : string) :
  stored (with_storage (delete k) w) k = None.
Proof.
  unfold stored, with_storage. destruct (window w) as [win|] eqn:Hw; cbn.
  - apply lookup_delete_eq.
  - now rewrite Hw.
Qed.

Lemma stored_delete_ne (w : World) (k k' : string) :
  k <> k' -> stored (with_storage (delete k) w) k' = stored w k'.
Proof.
  intros Hne. unfold stored, with_storage.
  destruct (window w) as [win|] eqn:Hw; cbn.
  - now apply lookup_delete_ne.
  - now rewrite Hw.
Qed.

(** One dispatch either sets the flag (credentials), clears it (logout) or
    leaves it alone. *)
Lemma reducer_isAuthenticated (sw : AuthState * World) (a : Action) :
  isAuthenticated (fst (reducer sw a)) =
  match a with
  | SetCredentials _ => true
  | Logout => false
  | _ => isAuthenticated (fst sw)
  end.
Proof. destruct sw as [s w], a; reflexivity. Qed.

Lemma credentials_in_force_snoc (acts : list Action) (a : Action) :
  is_logout a = false ->
  credentials_in_force acts -> credentials_in_force (acts ++ [a]).
Proof.
  intros Ha (pre & payload & post & -> & Hpost).
  exists pre, payload, (post ++ [a])%list. split.
  - now rewrite <- List.app_assoc.
  - rewrite forallb_app, Hpost. cbn. now rewrite Ha.
Qed.

Lemma authenticated_needs_credentials (sw : AuthState * World)
    (acts : list Action) :
  isAuthenticated (fst sw) = false ->
  isAuthenticated (fst (fold_left reducer acts sw)) = true ->
  credentials_in_force acts.
Proof.
  intros Hinit. induction acts as [|a acts IH] using rev_ind; intros Hauth.
  - cbn in Hauth. congruence.
  - rewrite fold_left_app in Hauth. cbn [fold_left] in Hauth.
    rewrite reducer_isAuthenticated in Hauth.
    destruct a as [payload| | | |].
    + exists acts, payload, []. split; reflexivity.
    + apply credentials_in_force_snoc; [reflexivity | now apply IH].
    + apply credentials_in_force_snoc; [reflexivity | now apply IH].
    + apply credentials_in_force_snoc; [reflexivity | now apply IH].
    + discriminate.
Qed.

End SliceFacts.

(** C6. From any slice state, [setCredentials] with token [T] and user [U]
    leaves [token = T], [user = U], [isAuthenticated = true] and
    [error = null]; and wherever there is durable storage (a window), the
    storage then holds [T] under the slice's token key. *)
Theorem setCredentials_sets_session
    (s : authSlice.AuthState) (w : World) (payload : AuthResponse) :
  let s' := fst (authSlice.setCredentials s w payload) in
  let w' := snd (authSlice.setCredentials s w payload) in
  authSlice.token s' = Some (auth_token payload) /\
  authSlice.user s' = Some (auth_user payload) /\
  authSlice.isAuthenticated s' = true /\
  authSlice.error s' = None /\
  (forall win, window w = Some win ->
     stored w' "auth_token" = Some (auth_token payload)).
Proof.
  cbn. repeat split. intros win Hw.
  unfold window_defined. rewrite Hw. now apply stored_insert with win.
Qed.

Lemma setCredentials_sets_session_witness :
  let r := authSlice.setCredentials stale_state (browser ∅ "/auth/login")
             {| auth_token := "T"; auth_user := alice |} in
  authSlice.token (fst r) = Some "T" /\
  authSlice.user (fst r) = Some alice /\
  authSlice.isAuthenticated (fst r) = true /\
  authSlice.error (fst r) = None /\
  stored (snd r) "auth_token" = Some "T".
Proof.
  destruct (setCredentials_sets_session stale_state (browser ∅ "/auth/login")
              {| auth_token := "T"; auth_user := alice |})
    as (Htoken & Huser & Hauth & Herror & Hstored).
  split; [exact Htoken|]. split; [exact Huser|].
  split; [exact Hauth|]. split; [exact Herror|].
  apply (Hstored {| localStorage := ∅; location_href := "/auth/login" |}).
  reflexivity.
Defined.

(** C7. In every state reached from the initial state by the slice's
    actions, [isAuthenticated] holds only if some [setCredentials] was
    dispatched with no [logout] after it; and the initial state hydrated
    from storage carries the stored token with [isAuthenticated] false. *)
Theorem isAuthenticated_only_after_setCredentials :
  (forall (w : World) (acts : list authSlice.Action),
     authSlice.isAuthenticated (fst (authSlice.dispatch_all w acts)) = true ->
     authSlice.credentials_in_force acts) /\
  (forall (w : World) (win : Window) (t : string),
     window w = Some win ->
     localStorage win !! "auth_token" = Some t ->
     authSlice.token (authSlice.initialState w) = Some t /\
     authSlice.isAuthenticated (authSlice.initialState w) = false).
Proof.
  split.
  - intros w acts. unfold authSlice.dispatch_all.
    now apply authenticated_needs_credentials.
  - intros w win t Hw Ht. split; [|reflexivity].
    unfold authSlice.initialState, window_defined, stored. cbn.
    now rewrite Hw.
Qed.

Lemma isAuthenticated_only_after_setCredentials_witness :
  authSlice.credentials_in_force
    [authSlice.SetLoading true;
     authSlice.SetCredentials {| auth_token := "T"; auth_user := alice |};
     authSlice.SetLoading false] /\
  authSlice.token
    (authSlice.initialState (browser {[ "auth_token" := "T" ]} "/")) = Some "T" /\
  authSlice.isAuthenticated
    (authSlice.initialState (browser {[ "auth_token" := "T" ]} "/")) = false.
Proof.
  split.
  - apply (proj1 isAuthenticated_only_after_setCredentials (browser ∅ "/")).
    reflexivity.
  - apply (proj2 isAuthenticated_only_after_setCredentials
             (browser {[ "auth_token" := "T" ]} "/")
             {| localStorage := {[ "auth_token" := "T" ]}; location_href := "/" |}).
    + reflexivity.
    + reflexivity.
Defined.

(** C8. After [setCredentials(a)], [setUser(newProfile)] leaves [token] and
    [isAuthenticated] as [setCredentials] left them and makes [user] the new
    profile. *)
Theorem setUser_after_setCredentials
    (s : authSlice.AuthState) (w : World) (a : AuthResponse)
    (newProfile : UserProfile) :
  let after_credentials := authSlice.reducer (s, w) (authSlice.SetCredentials a) in
  let after_user := authSlice.reducer after_credentials (authSlice.SetUser newProfile) in
  authSlice.token (fst after_user) = authSlice.token (fst after_credentials) /\
  authSlice.isAuthenticated (fst after_user)
    = authSlice.isAuthenticated (fst after_credentials) /\
  authSlice.user (fst after_user) = Some newProfile.
Proof. cbn. repeat split. Qed.

(** C10. [setLoading(b)] changes the [loading] field only and [setError(m)]
    the [error] field only: [token], [user] and [isAuthenticated] keep their
    values and the globals, durable storage included, are left as they
    were. *)
Theorem setLoading_setError_frame
    (s : authSlice.AuthState) (w : World) (b : bool) (m : string) :
  authSlice.setLoading s w b =
    ({| authSlice.token := authSlice.token s;
        authSlice.user := authSlice.user s;
        authSlice.isAuthenticated := authSlice.isAuthenticated s;
        authSlice.loading := b;
        authSlice.error := authSlice.error s |}, w) /\
  authSlice.setError s w m =
    ({| authSlice.token := authSlice.token s;
        authSlice.user := authSlice.user s;
        authSlice.isAuthenticated := authSlice.isAuthenticated s;
        authSlice.loading := authSlice.loading s;
        authSlice.error := Some m |}, w).
Proof. split; reflexivity. Qed.

(** ** The route guard *)

Section GuardFacts.
Import Middleware.

(** [encodeURI] changes nothing in a string of unescaped characters. *)
Lemma encodeURI_unescaped (s : string) :
  all_chars uri_unescaped s = true -> encodeURI s = s.
Proof.
  induction s as [|c rest IH]; cbn; [reflexivity|].
  intros H. apply andb_prop in H as [Hc Hrest].
  rewrite Hc. f_equal. now apply IH.
Qed.

Lemma not_token_nonempty (t : string) :
  t <> EmptyString -> not_token (Some t) = false.
Proof.
  intros Ht. cbn. destruct (String.eqb_spec t EmptyString); [contradiction | reflexivity].
Qed.

End GuardFacts.

(** C4, as stated, fails: for a protected address holding a [%] and no
    cookie, the callback parameter is not the requested address. *)
Lemma callbackUrl_differs_from_requested_url :
  Middleware.isProtectedPath
    (Middleware.pathname (Middleware.nextUrl profile_request)) = true /\
  Middleware.cookies profile_request !! "auth_token" = None /\
  Middleware.callbackUrl (Middleware.middleware profile_request)
    = Some "http://localhost:3000/profile/a%2520b" /\
  Middleware.callbackUrl (Middleware.middleware profile_request)
    <> Some (Middleware.url profile_request).
Proof. repeat split. vm_compute. discriminate. Qed.

(** C4, amended. For a protected path and no session cookie the guard
    redirects to [/auth/login] on the request's origin with the single
    parameter [callbackUrl] set to [encodeURI] of the requested address;
    that is the requested address itself when it holds only characters
    [encodeURI] leaves alone. *)
Theorem protected_without_cookie_redirects_to_login
    (request : Middleware.NextRequest) :
  Middleware.isProtectedPath
    (Middleware.pathname (Middleware.nextUrl request)) = true ->
  Middleware.cookies request !! "auth_token" = None ->
  Middleware.middleware request =
    Middleware.redirect
      {| Middleware.origin := Middleware.origin (Middleware.nextUrl request);
         Middleware.pathname := "/auth/login";
         Middleware.searchParams :=
           [("callbackUrl", Middleware.encodeURI (Middleware.url request))] |} /\
  (all_chars Middleware.uri_unescaped (Middleware.url request) = true ->
   Middleware.callbackUrl (Middleware.middleware request)
     = Some (Middleware.url request)).
Proof.
  intros Hp Hc.
  assert (Hm : Middleware.middleware request =
    Middleware.redirect
      {| Middleware.origin := Middleware.origin (Middleware.nextUrl request);
         Middleware.pathname := "/auth/login";
         Middleware.searchParams :=
           [("callbackUrl", Middleware.encodeURI (Middleware.url request))] |}).
  { unfold Middleware.middleware. rewrite Hp, Hc. reflexivity. }
  split; [exact Hm|].
  intros Hsafe. rewrite Hm. cbn.
  now rewrite encodeURI_unescaped.
Qed.

Lemma protected_without_cookie_redirects_to_login_witness :
  Middleware.middleware settings_request =
    Middleware.redirect
      {| Middleware.origin := "http://localhost:3000";
         Middleware.pathname := "/auth/login";
         Middleware.searchParams :=
           [("callbackUrl", "http://localhost:3000/settings/account?tab=2")] |} /\
  Middleware.callbackUrl (Middleware.middleware settings_request)
    = Some "http://localhost:3000/settings/account?tab=2".
Proof.
  destruct (protected_without_cookie_redirects_to_login settings_request)
    as [Hredirect Hcallback].
  - reflexivity.
  - reflexivity.
  - split.
    + exact Hredirect.
    + apply Hcallback. reflexivity.
Defined.

(** C5, as stated, fails: the cookie is present, its content is the empty
    string, and the guard lets the request through. *)
Lemma empty_cookie_is_not_redirected :
  Middleware.isAuthPath
    (Middleware.pathname (Middleware.nextUrl login_request_empty_cookie)) = true /\
  Middleware.cookies login_request_empty_cookie !! "auth_token" = Some EmptyString /\
  Middleware.middleware login_request_empty_cookie = Middleware.next.
Proof. repeat split. Qed.

(** C5, amended. For an auth path and a session cookie whose value is not
    the empty string, the guard redirects to [/dashboard] on the request's
    origin, whatever that value is. *)
Theorem auth_path_with_cookie_redirects_to_dashboard
    (request : Middleware.NextRequest) (value : string) :
  Middleware.isAuthPath
    (Middleware.pathname (Middleware.nextUrl request)) = true ->
  Middleware.cookies request !! "auth_token" = Some value ->
  value <> EmptyString ->
  Middleware.middleware request =
    Middleware.redirect
      {| Middleware.origin := Middleware.origin (Middleware.nextUrl request);
         Middleware.pathname := "/dashboard";
         Middleware.searchParams := [] |}.
Proof.
  intros Ha Hc Hv. unfold Middleware.middleware.
  rewrite Ha, Hc, (not_token_nonempty value Hv), andb_false_r.
  reflexivity.
Qed.

Lemma auth_path_with_cookie_redirects_to_dashboard_witness :
  Middleware.middleware register_request =
    Middleware.redirect
      {| Middleware.origin := "http://localhost:3000";
         Middleware.pathname := "/dashboard";
         Middleware.searchParams := [] |}.
Proof.
  apply (auth_path_with_cookie_redirects_to_dashboard register_request
           "not-even-a-jwt").
  - reflexivity.
  - reflexivity.
  - discriminate.
Defined.

(** ** The two clients *)

Section ClientFacts.
Import Axios.

Lemma try_catch_returns {A} (p : Eff A) (f : A -> JsVal) (w : World) :
  try_catch (do r <- p; ret (f r)) (fun error => ret error) w =
  match p w with
  | (w', Fulfilled r) => (w', Fulfilled (f r))
  | (w', Rejected e) => (w', Fulfilled e)
  end.
Proof.
  unfold try_catch, bind, then_, ret, throw.
  destruct (p w) as [w' [r|e]]; reflexivity.
Qed.

Lemma AxiosError_not_nullish (message : string) (r : option AxiosResponse) :
  nullish (AxiosError message r) = false.
Proof. reflexivity. Qed.

Lemma settle_not_nullish (net : AxiosRequestConfig -> NetResult)
    (config : AxiosRequestConfig) (e : JsVal) :
  reasons_defined net -> settle (net config) = Rejected e -> nullish e = false.
Proof.
  intros Hnet. unfold settle.
  destruct (net config) as [r|e'] eqn:Hr.
  - destruct (validateStatus (status r)); [discriminate|].
    intros [= <-]. reflexivity.
  - intros [= <-]. eapply Hnet, Hr.
Qed.

(** A response with status 401 is settled as a rejection whose
    [response.status] reads 401. *)
Lemma settle_401 (r : AxiosResponse) :
  status r = 401 ->
  exists message,
    settle (NetResponse r) = Rejected (AxiosError message (Some r)).
Proof. intros Hs. unfold settle. rewrite Hs. cbn. eauto. Qed.

(** *** The first client *)

Lemma response_fulfilled1 (r : AxiosResponse) (w : World) :
  exists w',
    ApiService1.response_fulfilled r w = (w', Fulfilled (ApiService1.wrapped r)).
Proof.
  unfold ApiService1.response_fulfilled, bind, then_, ret, toast_success.
  destruct (truthy _); eauto.
Qed.

Lemma response_rejected1 (e : JsVal) (w : World) (win : Window) :
  window w = Some win -> nullish e = false ->
  exists w',
    ApiService1.response_rejected e w = (w', Rejected (ApiService1.failure e)).
Proof.
  intros Hw He.
  unfold ApiService1.response_rejected, bind, then_, throw, toast_error,
    localStorage_removeItem, set_location_href.
  rewrite He. destruct (is_num _ 401).
  - rewrite Hw. unfold with_storage. rewrite Hw. cbn. eauto.
  - eauto.
Qed.

(** The effects of the 401 branch, in a browser. *)
Lemma response_rejected1_401 (e : JsVal) (w : World) (win : Window) :
  window w = Some win -> nullish e = false ->
  is_num (opt (prop e "response") "status") 401 = true ->
  ApiService1.response_rejected e w =
    (toast "error" (VStr "Session expired. Please login again.")
       (with_location "/login" (with_storage (delete "token") w)),
     Rejected (ApiService1.failure e)).
Proof.
  intros Hw He H401.
  unfold ApiService1.response_rejected, bind, then_, throw, toast_error,
    localStorage_removeItem, set_location_href.
  rewrite He, H401, Hw. unfold with_storage at 1. rewrite Hw. cbn.
  reflexivity.
Qed.

Lemma api1_browser net m u d config w win :
  window w = Some win ->
  ApiService1.api net m u d config w =
  match settle (net (bearer (localStorage win !! "token")
                       (mergeConfig ApiService1.defaultHeaders
                          {| method := Some m; url := Some u; data := d;
                             headers := headers config |}))) with
  | Fulfilled r => ApiService1.response_fulfilled r w
  | Rejected e => ApiService1.response_rejected e w
  end.
Proof.
  intros Hw.
  unfold ApiService1.api, ApiService1.api_request, Axios.request,
    ApiService1.request_fulfilled, dispatchRequest, bind, then_, ret, throw,
    localStorage_getItem.
  rewrite Hw. reflexivity.
Qed.

Lemma api1_server net m u d config w :
  window w = None ->
  exists w' message,
    ApiService1.api net m u d config w =
    (w', Rejected (obj [("success", VBool false);
                        ("error", obj [("message", message);
                                       ("status", VUndef);
                                       ("data", VUndef)])])).
Proof.
  intros Hw.
  unfold ApiService1.api, ApiService1.api_request, Axios.request,
    ApiService1.request_fulfilled, dispatchRequest, bind, then_, ret, throw,
    localStorage_getItem.
  rewrite Hw. cbn. eauto.
Qed.

Lemma failure1_result1 (e : JsVal) : result1 (ApiService1.failure e).
Proof. right. unfold ApiService1.failure. eauto. Qed.

(** Every call of the transport layer of the first client ends with the
    wrapped body or with a rejection; the rejection is the normalized
    object unless the transport failed with [null] or [undefined]. *)
Lemma api1_settles net m u d config w :
  exists w',
    (exists r, ApiService1.api net m u d config w
               = (w', Fulfilled (ApiService1.wrapped r))) \/
    (exists e, ApiService1.api net m u d config w = (w', Rejected e) /\
               (reasons_defined net -> result1 e)).
Proof.
  destruct (window w) as [win|] eqn:Hw.
  - rewrite (api1_browser _ _ _ _ _ _ win Hw).
    destruct (settle _) as [r|e] eqn:Hs.
    + destruct (response_fulfilled1 r w) as [w' ->]. eauto.
    + destruct (nullish e) eqn:He.
      * unfold ApiService1.response_rejected. rewrite He.
        eexists. right. eexists. split; [reflexivity|].
        intros Hnet. rewrite (settle_not_nullish _ _ _ Hnet Hs) in He.
        discriminate.
      * destruct (response_rejected1 e w win Hw He) as [w' ->].
        exists w'. right. eexists. split; [reflexivity|].
        intros _. apply failure1_result1.
  - destruct (api1_server net m u d config w Hw) as (w' & msg & ->).
    exists w'. right. eexists. split; [reflexivity|].
    intros _. right. eauto.
Qed.

Lemma member1_returns net m f u d config w :
  ApiService1.member net m = Some f ->
  exists w' v,
    invoke f u d config w = (w', Fulfilled v) /\
    (reasons_defined net -> result1 v).
Proof.
  intros Hm.
  assert (Hcases : exists m' d', invoke f u d config w =
            try_catch (do r <- ApiService1.api net m' u d' config; ret (res_data r))
                      (fun error => ret error) w).
  { destruct m; cbn in Hm; inversion Hm; subst; cbn; eauto. }
  destruct Hcases as (m' & d' & ->).
  rewrite try_catch_returns.
  destruct (api1_settles net m' u d' config w) as (w' & [(r & ->) | (e & -> & He)]).
  - exists w'. eexists. split; [reflexivity|]. intros _. left. cbn. eauto.
  - exists w', e. split; [reflexivity | exact He].
Qed.


(** *** The second client *)

Lemma api_request2 net config w :
  ApiService2.api_request net config w =
  match settle (net (bearer (if window_defined w then stored w "auth_token"
                             else None)
                       (mergeConfig ApiService2.defaultHeaders config))) with
  | Fulfilled r => (w, Fulfilled r)
  | Rejected e => ApiService2.response_rejected e w
  end.
Proof.
  unfold ApiService2.api_request, Axios.request,
    ApiService2.request_fulfilled, ApiService2.request_rejected,
    ApiService2.response_fulfilled, dispatchRequest, then_, ret, throw.
  destruct (settle _); reflexivity.
Qed.

(** The error side passes the thrown value on, unless reading it throws. *)
Lemma response_rejected2 (e : JsVal) (w : World) :
  exists w' e', ApiService2.response_rejected e w = (w', Rejected e').
Proof.
  unfold ApiService2.response_rejected, bind, then_, throw, ret,
    localStorage_removeItem, set_location_href.
  destruct (nullish e); [eauto|].
  destruct (is_num _ 401); [|eauto].
  unfold window_defined, with_storage.
  destruct (window w) as [win|] eqn:Hw; cbn; eauto.
Qed.

Lemma response_rejected2_401 (e : JsVal) (w : World) (win : Window) :
  window w = Some win -> nullish e = false ->
  is_num (opt (prop e "response") "status") 401 = true ->
  ApiService2.response_rejected e w =
    (with_location "/auth/login" (with_storage (delete "auth_token") w),
     Rejected e).
Proof.
  intros Hw He H401.
  unfold ApiService2.response_rejected, bind, then_, throw, ret,
    localStorage_removeItem, set_location_href, window_defined.
  rewrite He, H401, Hw. unfold with_storage at 1. rewrite Hw. cbn.
  reflexivity.
Qed.

Lemma failure2_result2 (e : JsVal) : result2 (ApiService2.failure e).
Proof.
  unfold ApiService2.failure, result2.
  destruct (isAxiosError e && truthy (prop e "response")).
  - right. left. eauto.
  - right. right. eauto.
Qed.

Lemma request2_returns net config w :
  exists w' v,
    ApiService2.request net config w = (w', Fulfilled v) /\ result2 v.
Proof.
  unfold ApiService2.request, try_catch, bind, then_, ret, throw.
  rewrite api_request2.
  destruct (settle _) as [r|e].
  - exists w. eexists. split; [reflexivity|]. left. unfold ApiService2.success. eauto.
  - destruct (response_rejected2 e w) as (w' & e' & ->).
    exists w'. eexists. split; [reflexivity|]. apply failure2_result2.
Qed.

Lemma member2_returns net m u d config w :
  exists f w' v,
    ApiService2.member net m = Some f /\
    invoke f u d config w = (w', Fulfilled v) /\ result2 v.
Proof.
  destruct m; cbn; eexists; 
    (edestruct request2_returns as (w' & v & Hr & Hv);
     exists w', v; split; [reflexivity | split; [exact Hr | exact Hv]]).
Qed.

End ClientFacts.

(** *** The calls of both clients, unfolded *)

Section ClientResults.
Import Axios.

(** The data a member sends: its [data] argument where it has one, the
    config's otherwise. *)
Lemma member1_unfold net m f u d config w :
  ApiService1.member net m = Some f ->
  exists d',
    d' = (match m with GET | DELETE => data config | _ => d end) /\
    invoke f u d config w =
      try_catch (do r <- ApiService1.api net m u d' config; ret (res_data r))
                (fun error => ret error) w.
Proof.
  intros Hm. destruct m; cbn in Hm; inversion Hm; subst; cbn; eauto.
Qed.

Lemma member2_unfold net m f u d config w :
  ApiService2.member net m = Some f ->
  invoke f u d config w =
    ApiService2.request net
      {| method := Some m; url := Some u;
         data := (match m with GET | DELETE => data config | _ => d end);
         headers := headers config |} w.
Proof.
  intros Hm. destruct m; cbn in Hm; inversion Hm; subst; reflexivity.
Qed.

Lemma toast_keeps (kind : string) (msg : JsVal) (w : World) (k : string) :
  stored (toast kind msg w) k = stored w k /\
  location (toast kind msg w) = location w.
Proof. split; reflexivity. Qed.

Lemma response_rejected1_other (e : JsVal) (w : World) :
  nullish e = false ->
  is_num (opt (prop e "response") "status") 401 = false ->
  ApiService1.response_rejected e w =
    (toast "error"
       (or_else (or_else (or_else (opt (opt (prop e "response") "data") "detail")
                                  (opt (opt (prop e "response") "data") "message"))
                         (prop e "message"))
                (VStr "Something went wrong. Please try again.")) w,
     Rejected (ApiService1.failure e)).
Proof.
  intros He H401.
  unfold ApiService1.response_rejected, bind, then_, throw, toast_error.
  now rewrite He, H401.
Qed.

Lemma response_fulfilled1_eq (r : AxiosResponse) (w : World) :
  ApiService1.response_fulfilled r w =
    (if truthy (opt (res_data r) "message")
     then toast "success" (prop (res_data r) "message") w else w,
     Fulfilled (ApiService1.wrapped r)).
Proof.
  unfold ApiService1.response_fulfilled, bind, then_, ret, toast_success.
  destruct (truthy _); reflexivity.
Qed.

Lemma settle_response (r : AxiosResponse) :
  settle (NetResponse r) =
    if validateStatus (status r) then Fulfilled r
    else Rejected (AxiosError ("Request failed with status code "
                               ++ pretty (status r)) (Some r)).
Proof. reflexivity. Qed.

Lemma response_rejected2_other (e : JsVal) (w : World) :
  nullish e = false ->
  is_num (opt (prop e "response") "status") 401 = false ->
  ApiService2.response_rejected e w = (w, Rejected e).
Proof.
  intros He H401.
  unfold ApiService2.response_rejected, bind, then_, throw, ret.
  now rewrite He, H401.
Qed.

Lemma response_rejected2_server (e : JsVal) (w : World) :
  window w = None ->
  exists e', ApiService2.response_rejected e w = (w, Rejected e').
Proof.
  intros Hw.
  unfold ApiService2.response_rejected, bind, then_, throw, ret, window_defined.
  destruct (nullish e); [eauto|].
  destruct (is_num _ 401); rewrite ?Hw; eauto.
Qed.

Lemma response_rejected2_nullish (e : JsVal) (w : World) :
  nullish e = true ->
  ApiService2.response_rejected e w
    = (w, Rejected (type_error_reading e "response")).
Proof.
  intros He. unfold ApiService2.response_rejected, throw. now rewrite He.
Qed.

Lemma response_rejected2_passes (e : JsVal) (w : World) :
  nullish e = false -> snd (ApiService2.response_rejected e w) = Rejected e.
Proof.
  intros He.
  unfold ApiService2.response_rejected, bind, then_, throw, ret,
    localStorage_removeItem, set_location_href, window_defined, with_storage.
  rewrite He. destruct (is_num _ 401); [|reflexivity].
  destruct (window w) as [win|] eqn:Hw; cbn; rewrite ?Hw; reflexivity.
Qed.

(** Outside a browser the first client's request interceptor throws before
    anything is sent, and the error side turns that into a failure. *)
Lemma member1_no_window net m f u d config w :
  window w = None ->
  ApiService1.member net m = Some f ->
  invoke f u d config w =
    (toast "error" (VStr "localStorage is not defined") w,
     Fulfilled
       (obj [("success", VBool false);
             ("error", obj [("message", VStr "localStorage is not defined");
                            ("status", VUndef); ("data", VUndef)])])).
Proof.
  intros Hw Hm.
  destruct (member1_unfold net m f u d config w Hm) as (d' & _ & ->).
  rewrite try_catch_returns.
  unfold ApiService1.api, ApiService1.api_request, Axios.request,
    ApiService1.request_fulfilled, Axios.dispatchRequest, bind, then_, ret,
    throw, localStorage_getItem.
  rewrite Hw. reflexivity.
Qed.

End ClientResults.

(** *** A 401 answer *)

Section Unauthorized.
Import Axios.

(** Whatever is sent, the back end answers 401. *)
Variable net : AxiosRequestConfig -> NetResult.
Hypothesis net_401 :
  forall config, exists r, net config = NetResponse r /\ status r = 401.

Lemma settle_net_401 config :
  exists message r,
    settle (net config) = Rejected (AxiosError message (Some r)) /\
    status r = 401.
Proof.
  destruct (net_401 config) as (r & -> & Hs).
  destruct (settle_401 r Hs) as (message & ->). eauto.
Qed.

Lemma AxiosError_status message r :
  opt (prop (AxiosError message (Some r)) "response") "status" = VNum (status r).
Proof. reflexivity. Qed.

Lemma unauthorized1 m f u d config w win :
  window w = Some win ->
  ApiService1.member net m = Some f ->
  exists w' e,
    invoke f u d config w = (w', Fulfilled (ApiService1.failure e)) /\
    prop (prop (ApiService1.failure e) "error") "status" = VNum 401 /\
    stored w' "token" = None /\
    stored w' "auth_token" = stored w "auth_token" /\
    location w' = Some "/login".
Proof.
  intros Hw Hm.
  assert (Hcases : exists m' d', invoke f u d config w =
            try_catch (do r <- ApiService1.api net m' u d' config; ret (res_data r))
                      (fun error => ret error) w).
  { destruct m; cbn in Hm; inversion Hm; subst; cbn; eauto. }
  destruct Hcases as (m' & d' & ->).
  rewrite try_catch_returns, (api1_browser _ _ _ _ _ _ win Hw).
  destruct (settle_net_401 (bearer (localStorage win !! "token")
              (mergeConfig ApiService1.defaultHeaders
                 {| method := Some m'; url := Some u; data := d';
                    headers := headers config |})))
    as (message & r & -> & Hs).
  rewrite (response_rejected1_401 _ w win Hw); [| reflexivity |].
  2:{ rewrite AxiosError_status, Hs. reflexivity. }
  eexists. eexists. split; [reflexivity|].
  split; [cbn; now rewrite Hs|].
  unfold stored, location, with_location, with_storage. rewrite Hw. cbn.
  repeat split.
  - apply lookup_delete_eq.
  - now apply lookup_delete_ne.
Qed.

Lemma unauthorized2 m u d config w win :
  window w = Some win ->
  exists f w' r,
    ApiService2.member net m = Some f /\
    invoke f u d config w =
      (w', Fulfilled (obj [("success", VBool false);
                           ("status", VNum 401);
                           ("statusText", VStr (statusText r));
                           ("error", res_data r);
                           ("headers", res_headers r)])) /\
    stored w' "auth_token" = None /\
    location w' = Some "/auth/login".
Proof.
  intros Hw.
  assert (Hreq : forall cfg, exists w' r,
            ApiService2.request net cfg w =
              (w', Fulfilled (obj [("success", VBool false);
                           ("status", VNum 401);
                           ("statusText", VStr (statusText r));
                           ("error", res_data r);
                           ("headers", res_headers r)])) /\
            stored w' "auth_token" = None /\
            location w' = Some "/auth/login").
  { intros cfg.
    unfold ApiService2.request, try_catch, bind, then_, ret, throw.
    rewrite api_request2.
    destruct (settle_net_401 (bearer (if window_defined w then stored w "auth_token" else None)
                (mergeConfig ApiService2.defaultHeaders cfg)))
      as (message & r & -> & Hs).
    rewrite (response_rejected2_401 _ w win Hw); [| reflexivity |].
    2:{ rewrite AxiosError_status, Hs. reflexivity. }
    eexists. exists r. split.
    - cbn. rewrite Hs. reflexivity.
    - unfold stored, location, with_location, with_storage. rewrite Hw. cbn.
      split; [apply lookup_delete_eq | reflexivity]. }
  destruct m; cbn; eexists;
    (edestruct Hreq as (w' & r & Hr & Hst & Hl);
     exists w', r; split; [reflexivity | split; [exact Hr | split; assumption]]).
Qed.

End Unauthorized.

(** The second client on the same 401 answer: the slice's token is gone
    and the browser is at the login page. *)
Example second_client_purges_on_401 :
  exists f w' r,
    ApiService2.member (answers unauthorized) Axios.GET = Some f /\
    Axios.invoke f "auth/me" VUndef Axios.no_config signed_in =
      (w', Fulfilled (obj [("success", VBool false);
                           ("status", VNum 401);
                           ("statusText", VStr (Axios.statusText r));
                           ("error", Axios.res_data r);
                           ("headers", Axios.res_headers r)])) /\
    stored w' "auth_token" = None /\
    location w' = Some "/auth/login".
Proof.
  apply unauthorized2
    with (win := {| localStorage := <["auth_token" := "T"]> ∅;
                    location_href := "/dashboard" |}).
  - intros config. exists unauthorized. split; reflexivity.
  - reflexivity.
Qed.

(** The first client on it, from any browser state: it clears its own key
    [token], leaves [auth_token] alone and goes to [/login]. *)
Example first_client_on_401 :
  exists w' e,
    Axios.invoke (Axios.UrlConfig (ApiService1.get (answers unauthorized)))
      "auth/me" VUndef Axios.no_config signed_in
      = (w', Fulfilled (ApiService1.failure e)) /\
    prop (prop (ApiService1.failure e) "error") "status" = VNum 401 /\
    stored w' "token" = None /\
    stored w' "auth_token" = stored signed_in "auth_token" /\
    location w' = Some "/login".
Proof.
  apply (unauthorized1 (answers unauthorized))
    with (m := Axios.GET)
         (win := {| localStorage := <["auth_token" := "T"]> ∅;
                    location_href := "/dashboard" |}).
  - intros config. exists unauthorized. split; reflexivity.
  - reflexivity.
  - reflexivity.
Qed.

(** C1. The storage key is not one: [setCredentials] and [logout] use
    [auth_token], the first client reads (and on 401 removes) [token]. After
    a credential-set in a fresh browser the token sits under [auth_token],
    where [logout] removes it, nothing sits under [token], the first
    client's request interceptor passes every config on without an
    [Authorization] header, and the second client's attaches [Bearer T]. *)
Theorem token_key_mismatch :
  stored signed_in "auth_token" = Some "T" /\
  stored (snd (authSlice.logout stale_state signed_in)) "auth_token" = None /\
  stored signed_in "token" = None /\
  (forall config,
     ApiService1.request_fulfilled config signed_in
       = (signed_in, Fulfilled config)) /\
  (forall config,
     ApiService2.request_fulfilled config signed_in
       = (signed_in,
          Fulfilled (Axios.set_header "Authorization" "Bearer T" config))).
Proof. repeat split. Qed.

(** C2. With the token stored by [setCredentials], a 401 answer to the
    endpoint layer's [getCurrentUser] comes back as the failure object, but
    the token is still in durable storage and the browser is sent to
    [/login], which is none of the guard's auth paths. *)
Theorem unauthorized_leaves_session_token :
  let r := authApi.getCurrentUser (answers unauthorized) signed_in in
  snd r = Fulfilled
            (obj [("success", VBool false);
                  ("error",
                   obj [("message", VStr "Not authenticated");
                        ("status", VNum 401);
                        ("data", obj [("detail", VStr "Not authenticated")])])]) /\
  stored (fst r) "auth_token" = Some "T" /\
  location (fst r) = Some "/login" /\
  Middleware.isAuthPath "/login" = false.
Proof. repeat split. Qed.

(** C3, as stated, fails. A 200 answer through the first client comes back
    as [{success, data}], without [status] and [headers]; a 404 answer
    through the second comes back with the server's body as [error], here
    without a [message]. Neither is one of the two shapes. *)
Lemma results_outside_the_two_shapes :
  (let r := ApiService1.get (answers current_user) "auth/me" Axios.no_config
              (browser ∅ "/dashboard") in
   snd r = Fulfilled (obj [("success", VBool true);
                           ("data", Axios.res_data current_user)]) /\
   normalized (obj [("success", VBool true);
                    ("data", Axios.res_data current_user)]) = false) /\
  (let r := ApiService2.get (answers not_found) "auth/me" Axios.no_config
              (browser ∅ "/dashboard") in
   snd r = Fulfilled (obj [("success", VBool false);
                           ("status", VNum 404);
                           ("statusText", VStr "Not Found");
                           ("error", obj [("detail", VStr "Not Found")]);
                           ("headers", obj [])]) /\
   normalized (obj [("success", VBool false);
                    ("status", VNum 404);
                    ("statusText", VStr "Not Found");
                    ("error", obj [("detail", VStr "Not Found")]);
                    ("headers", obj [])]) = false).
Proof. repeat split. Qed.

(** C3, amended. Every method of either client returns for every outcome
    of the transport and never rejects, and the outcome fixes the result.
    The first client, in a browser, returns [{success: true, data: body}]
    for a response with a status from 200 to 299; [{success: false, error:
    {message, status, data: body}}] for a response with any other status,
    the message being the body's [detail], else its [message], else
    [Request failed with status code N]; the same shape read off the
    rejection value when the transport fails with anything but [null] or
    [undefined], and the [TypeError] itself when it fails with one of
    these. Outside a browser it returns the failure [localStorage is not
    defined] whatever the transport would answer. The second client returns
    [{data, status, statusText, headers, success: true}] for a response
    with a status from 200 to 299; [{success: false, status, statusText,
    error, headers}] with the server's body as [error] for a response with
    any other status, or when the transport fails with an axios error that
    carries a response; and [{success: false, error: {message, code:
    'UNKNOWN_ERROR'}}] otherwise, the message being the error's own, or
    [Unknown error occurred] for a value that is not an [Error]. *)
Theorem methods_return_and_never_reject
    (net : Axios.AxiosRequestConfig -> Axios.NetResult) (m : Axios.Method)
    (u : string) (d : JsVal) (config : Axios.AxiosRequestConfig) (w : World) :
  (forall f, ApiService1.member net m = Some f ->
     exists w' v,
       Axios.invoke f u d config w = (w', Fulfilled v) /\
       match window w with
       | None =>
           v = obj [("success", VBool false);
                    ("error",
                     obj [("message", VStr "localStorage is not defined");
                          ("status", VUndef); ("data", VUndef)])]
       | Some win =>
           match net (Axios.bearer (localStorage win !! "token")
                        (Axios.mergeConfig ApiService1.defaultHeaders
                           {| Axios.method := Some m; Axios.url := Some u;
                              Axios.data := sent_data m d config;
                              Axios.headers := Axios.headers config |})) with
           | Axios.NetResponse r =>
               let body := Axios.res_data r in
               v = if Axios.validateStatus (Axios.status r) then
                     obj [("success", VBool true); ("data", body)]
                   else
                     obj [("success", VBool false);
                          ("error",
                           obj [("message",
                                 or_else (or_else (opt body "detail")
                                                  (opt body "message"))
                                         (VStr ("Request failed with status code "
                                                ++ pretty (Axios.status r))));
                                ("status", VNum (Axios.status r));
                                ("data", body)])]
           | Axios.NetFailure e =>
               let response := prop e "response" in
               let body := opt response "data" in
               v = if nullish e then type_error_reading e "config" else
                     obj [("success", VBool false);
                          ("error",
                           obj [("message",
                                 or_else (or_else (opt body "detail")
                                                  (opt body "message"))
                                         (prop e "message"));
                                ("status", opt response "status");
                                ("data", body)])]
           end
       end) /\
  (exists f w' v,
     ApiService2.member net m = Some f /\
     Axios.invoke f u d config w = (w', Fulfilled v) /\
     match net (Axios.bearer (if window_defined w then stored w "auth_token"
                              else None)
                  (Axios.mergeConfig ApiService2.defaultHeaders
                     {| Axios.method := Some m; Axios.url := Some u;
                        Axios.data := sent_data m d config;
                        Axios.headers := Axios.headers config |})) with
     | Axios.NetResponse r =>
         v = if Axios.validateStatus (Axios.status r) then
               obj [("data", Axios.res_data r);
                    ("status", VNum (Axios.status r));
                    ("statusText", VStr (Axios.statusText r));
                    ("headers", Axios.res_headers r);
                    ("success", VBool true)]
             else
               obj [("success", VBool false);
                    ("status", VNum (Axios.status r));
                    ("statusText", VStr (Axios.statusText r));
                    ("error", Axios.res_data r);
                    ("headers", Axios.res_headers r)]
     | Axios.NetFailure e =>
         let thrown := if nullish e then type_error_reading e "response"
                       else e in
         let response := prop thrown "response" in
         v = if isAxiosError thrown && truthy response then
               obj [("success", VBool false);
                    ("status", prop response "status");
                    ("statusText", prop response "statusText");
                    ("error", prop response "data");
                    ("headers", prop response "headers")]
             else
               obj [("success", VBool false);
                    ("error",
                     obj [("message",
                           if instanceof_Error thrown
                           then prop thrown "message"
                           else VStr "Unknown error occurred");
                          ("code", VStr "UNKNOWN_ERROR")])]
     end).
Proof.
  split.
  - intros f Hm. destruct (window w) as [win|] eqn:Hw.
    + destruct (member1_unfold net m f u d config w Hm) as (d' & Hd & ->).
      fold (sent_data m d config) in Hd. subst d'.
      rewrite try_catch_returns, (api1_browser _ _ _ _ _ _ win Hw).
      destruct (net _) as [r|e].
      * rewrite settle_response.
        destruct (Axios.validateStatus (Axios.status r)).
        -- rewrite response_fulfilled1_eq. eauto.
        -- destruct (response_rejected1
                       (Axios.AxiosError
                          ("Request failed with status code "
                           ++ pretty (Axios.status r)) (Some r)) w win Hw
                       eq_refl) as (w' & ->).
           exists w'. eexists. split; [reflexivity|]. reflexivity.
      * cbn [Axios.settle]. destruct (nullish e) eqn:He.
        -- unfold ApiService1.response_rejected, throw. rewrite He. eauto.
        -- destruct (response_rejected1 e w win Hw He) as (w' & ->).
           exists w'. eexists. split; reflexivity.
    + rewrite (member1_no_window net m f u d config w Hw Hm). eauto.
  - destruct (member2_returns net m u d config w) as (f & _ & _ & Hm & _ & _).
    exists f. rewrite (member2_unfold net m f u d config w Hm).
    fold (sent_data m d config).
    unfold ApiService2.request, try_catch, bind, then_, ret, throw.
    rewrite api_request2.
    destruct (net _) as [r|e].
    + rewrite settle_response.
      destruct (Axios.validateStatus (Axios.status r)).
      * exists w. eexists. split; [exact Hm|]. split; reflexivity.
      * pose proof (response_rejected2_passes
                      (Axios.AxiosError
                         ("Request failed with status code "
                          ++ pretty (Axios.status r)) (Some r)) w eq_refl)
          as Hp.
        destruct (ApiService2.response_rejected _ w) as [w' s].
        cbn in Hp. subst s.
        exists w'. eexists. split; [exact Hm|]. split; reflexivity.
    + cbn [Axios.settle]. destruct (nullish e) eqn:He.
      * rewrite (response_rejected2_nullish e w He).
        exists w. eexists. split; [exact Hm|]. split; reflexivity.
      * pose proof (response_rejected2_passes e w He) as Hp.
        destruct (ApiService2.response_rejected e w) as [w' s].
        cbn in Hp. subst s.
        exists w'. eexists. split; [exact Hm|]. split; reflexivity.
Qed.

Lemma methods_return_and_never_reject_witness :
  (exists w',
     ApiService1.post (answers not_found) "auth/login" VNull Axios.no_config
       (browser ∅ "/auth/login")
     = (w', Fulfilled
              (obj [("success", VBool false);
                    ("error",
                     obj [("message", VStr "Not Found");
                          ("status", VNum 404);
                          ("data", obj [("detail", VStr "Not Found")])])]))) /\
  (exists w',
     ApiService2.post (answers not_found) "auth/login" VNull Axios.no_config
       (browser ∅ "/auth/login")
     = (w', Fulfilled
              (obj [("success", VBool false);
                    ("status", VNum 404);
                    ("statusText", VStr "Not Found");
                    ("error", obj [("detail", VStr "Not Found")]);
                    ("headers", obj [])]))).
Proof.
  destruct (methods_return_and_never_reject (answers not_found) Axios.POST
              "auth/login" VNull Axios.no_config (browser ∅ "/auth/login"))
    as [H1 H2].
  split.
  - destruct (H1 (Axios.UrlDataConfig (ApiService1.post (answers not_found)))
                eq_refl) as (w' & v & Hr & Hv).
    exists w'. cbn in Hv. rewrite Hv in Hr. exact Hr.
  - destruct H2 as (f & w' & v & Hm & Hr & Hv).
    injection Hm as <-.
    exists w'. cbn in Hv. rewrite Hv in Hr. exact Hr.
Defined.

(** C9, as stated, fails: the client the endpoint layer imports has no
    [patch]. *)
Lemma endpoint_client_has_no_patch :
  authApi.apiService_member (answers current_user) Axios.PATCH = None.
Proof. reflexivity. Qed.

(** C9, amended. The client the endpoint layer imports has [get] and
    [delete], taking (url, config?), and [post] and [put], taking (url,
    data?, config?), and no [patch]; each of the four returns, never
    rejecting, a result of the first client's shapes (provided the transport
    does not fail with [null] or [undefined]). The second client has all
    five. *)
Theorem endpoint_client_members
    (net : Axios.AxiosRequestConfig -> Axios.NetResult) :
  (authApi.apiService_member net Axios.GET
     = Some (Axios.UrlConfig (ApiService1.get net)) /\
   authApi.apiService_member net Axios.POST
     = Some (Axios.UrlDataConfig (ApiService1.post net)) /\
   authApi.apiService_member net Axios.PUT
     = Some (Axios.UrlDataConfig (ApiService1.put net)) /\
   authApi.apiService_member net Axios.DELETE
     = Some (Axios.UrlConfig (ApiService1.delete net)) /\
   authApi.apiService_member net Axios.PATCH = None) /\
  (forall m f u d config w,
     authApi.apiService_member net m = Some f ->
     exists w' v,
       Axios.invoke f u d config w = (w', Fulfilled v) /\
       (reasons_defined net -> result1 v)) /\
  (forall m, exists f, ApiService2.member net m = Some f).
Proof.
  split; [repeat split|]. split.
  - intros m f u d config w Hf. now apply member1_returns with m.
  - intros m. destruct m; cbn; eauto.
Qed.

Lemma endpoint_client_members_witness :
  exists w' v,
    ApiService1.delete (answers current_user) "v1/users/1" Axios.no_config
      (browser ∅ "/user/profile") = (w', Fulfilled v) /\ result1 v.
Proof.
  destruct (endpoint_client_members (answers current_user))
    as (_ & Hreturns & _).
  destruct (Hreturns Axios.DELETE
              (Axios.UrlConfig (ApiService1.delete (answers current_user)))
              "v1/users/1" VUndef Axios.no_config (browser ∅ "/user/profile")
              eq_refl) as (w' & v & Hr & Hv).
  exists w', v. split; [exact Hr|].
  apply Hv. intros cfg e He. discriminate He.
Defined.

(** * Further properties *)

(** ** The slice over whole runs *)

Section SliceInvariants.
Import authSlice.

(** What one dispatch does to the globals: nothing beyond the entry
    [auth_token] of durable storage. *)
Lemma reducer_frame (sw : AuthState * World) (a : Action) (k : string) :
  k <> "auth_token" ->
  stored (snd (reducer sw a)) k = stored (snd sw) k /\
  location (snd (reducer sw a)) = location (snd sw) /\
  toasts (snd (reducer sw a)) = toasts (snd sw) /\
  window_defined (snd (reducer sw a)) = window_defined (snd sw).
Proof.
  intros Hk. destruct sw as [s w].
  destruct a; cbn; try (repeat split; reflexivity);
    unfold window_defined, stored, location, with_storage;
    destruct (window w) as [win|] eqn:Hw; cbn; rewrite ?Hw;
    repeat split; auto.
  - apply lookup_insert_ne. congruence.
  - apply lookup_delete_ne. congruence.
Qed.

Lemma fold_reducer_frame (acts : list Action) (sw : AuthState * World)
    (k : string) :
  k <> "auth_token" ->
  stored (snd (fold_left reducer acts sw)) k = stored (snd sw) k /\
  location (snd (fold_left reducer acts sw)) = location (snd sw) /\
  toasts (snd (fold_left reducer acts sw)) = toasts (snd sw) /\
  window_defined (snd (fold_left reducer acts sw)) = window_defined (snd sw).
Proof.
  intros Hk. revert sw.
  induction acts as [|a acts IH]; intros sw; cbn [fold_left].
  - repeat split.
  - destruct (IH (reducer sw a)) as (H1 & H2 & H3 & H4).
    destruct (reducer_frame sw a k Hk) as (G1 & G2 & G3 & G4).
    repeat split; congruence.
Qed.

(** In a browser one dispatch keeps the state's token equal to the stored
    one. *)
Lemma reducer_mirror (sw : AuthState * World) (a : Action) :
  window_defined (snd sw) = true ->
  token (fst sw) = stored (snd sw) "auth_token" ->
  window_defined (snd (reducer sw a)) = true /\
  token (fst (reducer sw a)) = stored (snd (reducer sw a)) "auth_token".
Proof.
  destruct sw as [s w]. cbn [fst snd]. intros Hd Hm.
  unfold window_defined in Hd.
  destruct (window w) as [win|] eqn:Hw; [|discriminate].
  destruct a; cbn; unfold window_defined, stored, with_storage;
    rewrite ?Hw; cbn; rewrite ?Hw; split; auto.
  - symmetry. apply lookup_insert_eq.
  - rewrite Hm. unfold stored. now rewrite Hw.
  - rewrite Hm. unfold stored. now rewrite Hw.
  - rewrite Hm. unfold stored. now rewrite Hw.
  - symmetry. apply lookup_delete_eq.
Qed.

Lemma fold_reducer_mirror (acts : list Action) (sw : AuthState * World) :
  window_defined (snd sw) = true ->
  token (fst sw) = stored (snd sw) "auth_token" ->
  token (fst (fold_left reducer acts sw))
    = stored (snd (fold_left reducer acts sw)) "auth_token".
Proof.
  revert sw. induction acts as [|a acts IH]; intros sw Hd Hm; cbn [fold_left].
  - exact Hm.
  - destruct (reducer_mirror sw a Hd Hm) as [Hd' Hm']. now apply IH.
Qed.

Lemma reducer_authenticated_has_session (sw : AuthState * World) (a : Action) :
  (isAuthenticated (fst sw) = true ->
   is_Some (token (fst sw)) /\ is_Some (user (fst sw))) ->
  isAuthenticated (fst (reducer sw a)) = true ->
  is_Some (token (fst (reducer sw a))) /\ is_Some (user (fst (reducer sw a))).
Proof.
  destruct sw as [s w]. cbn [fst]. intros Hinv.
  destruct a; cbn; intros Hauth; try discriminate; eauto.
  - destruct (Hinv Hauth). eauto.
Qed.

Lemma fold_authenticated_has_session (acts : list Action)
    (sw : AuthState * World) :
  (isAuthenticated (fst sw) = true ->
   is_Some (token (fst sw)) /\ is_Some (user (fst sw))) ->
  isAuthenticated (fst (fold_left reducer acts sw)) = true ->
  is_Some (token (fst (fold_left reducer acts sw))) /\
  is_Some (user (fst (fold_left reducer acts sw))).
Proof.
  revert sw. induction acts as [|a acts IH]; intros sw Hinv; cbn [fold_left].
  - exact Hinv.
  - apply IH. now apply reducer_authenticated_has_session.
Qed.

Lemma fold_keeps_authenticated (post : list Action) (sw : AuthState * World) :
  forallb (fun a => negb (is_logout a)) post = true ->
  isAuthenticated (fst sw) = true ->
  isAuthenticated (fst (fold_left reducer post sw)) = true.
Proof.
  revert sw. induction post as [|a post IH]; intros sw Hpost Hauth;
    cbn [fold_left]; [exact Hauth|].
  cbn in Hpost. apply andb_prop in Hpost as [Ha Hpost].
  apply IH; [exact Hpost|].
  rewrite reducer_isAuthenticated. destruct a; try reflexivity; auto.
Qed.

End SliceInvariants.

(** X1. [logout] empties the session: [token], [user] and [error] become
    [null], [isAuthenticated] false, [loading] keeps its value; durable
    storage loses [auth_token] and keeps every other entry, and the
    location stays. *)
Theorem logout_clears_session (s : authSlice.AuthState) (w : World) :
  let s' := fst (authSlice.logout s w) in
  let w' := snd (authSlice.logout s w) in
  authSlice.token s' = None /\
  authSlice.user s' = None /\
  authSlice.isAuthenticated s' = false /\
  authSlice.error s' = None /\
  authSlice.loading s' = authSlice.loading s /\
  stored w' "auth_token" = None /\
  (forall k, k <> "auth_token" -> stored w' k = stored w k) /\
  location w' = location w.
Proof.
  cbn. repeat split.
  - unfold window_defined, stored. destruct (window w) as [win|] eqn:Hw.
    + unfold with_storage. rewrite Hw. cbn. apply lookup_delete_eq.
    + now rewrite Hw.
  - intros k Hk.
    apply (reducer_frame (s, w) authSlice.Logout k Hk).
  - apply (reducer_frame (s, w) authSlice.Logout "token"). discriminate.
Qed.

Lemma logout_clears_session_witness :
  stored (snd (authSlice.logout stale_state legacy_browser)) "auth_token" = None /\
  stored (snd (authSlice.logout stale_state legacy_browser)) "token"
    = Some "legacy".
Proof.
  destruct (logout_clears_session stale_state legacy_browser)
    as (_ & _ & _ & _ & _ & Hgone & Hkept & _).
  split; [exact Hgone|].
  rewrite (Hkept "token"); [reflexivity | discriminate].
Defined.

(** X2. A reload after [setCredentials] in a browser starts from the stored
    token alone: [token] is the payload's, [user] is [null] and
    [isAuthenticated] false. A reload after [logout] starts with no token. *)
Theorem reload_restores_token_only
    (s : authSlice.AuthState) (w : World) (payload : AuthResponse) :
  window_defined w = true ->
  authSlice.initialState (snd (authSlice.setCredentials s w payload)) =
    {| authSlice.token := Some (auth_token payload);
       authSlice.user := None;
       authSlice.isAuthenticated := false;
       authSlice.loading := false;
       authSlice.error := None |} /\
  authSlice.initialState (snd (authSlice.logout s w)) =
    {| authSlice.token := None;
       authSlice.user := None;
       authSlice.isAuthenticated := false;
       authSlice.loading := false;
       authSlice.error := None |}.
Proof.
  intros Hd. unfold window_defined in Hd.
  destruct (window w) as [win|] eqn:Hw; [|discriminate].
  unfold authSlice.initialState, authSlice.setCredentials, authSlice.logout,
    window_defined, stored, with_storage. cbn. rewrite Hw. cbn.
  rewrite lookup_insert_eq, lookup_delete_eq. split; reflexivity.
Qed.

Lemma reload_restores_token_only_witness :
  authSlice.token
    (authSlice.initialState
       (snd (authSlice.setCredentials stale_state fresh_browser
               {| auth_token := "T"; auth_user := alice |}))) = Some "T" /\
  authSlice.isAuthenticated
    (authSlice.initialState
       (snd (authSlice.setCredentials stale_state fresh_browser
               {| auth_token := "T"; auth_user := alice |}))) = false.
Proof.
  destruct (reload_restores_token_only stale_state fresh_browser
              {| auth_token := "T"; auth_user := alice |} eq_refl) as [H _].
  rewrite H. split; reflexivity.
Defined.

(** X3. Whatever actions are dispatched, the slice changes nothing of the
    globals but the storage entry [auth_token]: every other entry, the
    location and the toasts are as before. *)
Theorem slice_touches_only_its_key
    (w : World) (acts : list authSlice.Action) (k : string) :
  k <> "auth_token" ->
  let w' := snd (authSlice.dispatch_all w acts) in
  stored w' k = stored w k /\
  location w' = location w /\
  toasts w' = toasts w.
Proof.
  intros Hk. cbn.
  destruct (fold_reducer_frame acts (authSlice.initialState w, w) k Hk)
    as (H1 & H2 & H3 & _).
  repeat split; assumption.
Qed.

Lemma slice_touches_only_its_key_witness :
  stored (snd (authSlice.dispatch_all legacy_browser
                 [authSlice.SetCredentials {| auth_token := "T"; auth_user := alice |};
                  authSlice.Logout])) "token" = Some "legacy".
Proof.
  destruct (slice_touches_only_its_key legacy_browser
              [authSlice.SetCredentials {| auth_token := "T"; auth_user := alice |};
               authSlice.Logout] "token") as (H & _ & _).
  - discriminate.
  - rewrite H. reflexivity.
Defined.

(** X4. In a browser the slice's [token] always equals what durable storage
    holds under [auth_token], from hydration on and after every dispatch. *)
Theorem token_mirrors_storage (w : World) (acts : list authSlice.Action) :
  window_defined w = true ->
  authSlice.token (fst (authSlice.dispatch_all w acts))
    = stored (snd (authSlice.dispatch_all w acts)) "auth_token".
Proof.
  intros Hd. apply fold_reducer_mirror; [exact Hd|].
  cbn. now rewrite Hd.
Qed.

Lemma token_mirrors_storage_witness :
  authSlice.token
    (fst (authSlice.dispatch_all signed_in
            [authSlice.SetError "x"; authSlice.Logout;
             authSlice.SetCredentials {| auth_token := "U"; auth_user := alice |}]))
  = stored
      (snd (authSlice.dispatch_all signed_in
              [authSlice.SetError "x"; authSlice.Logout;
               authSlice.SetCredentials {| auth_token := "U"; auth_user := alice |}]))
      "auth_token".
Proof.
  apply (token_mirrors_storage signed_in). reflexivity.
Defined.

(** X5. In every state reached by the slice's actions, [isAuthenticated]
    being true comes with a token and a user, both non-null. *)
Theorem authenticated_state_has_token_and_user
    (w : World) (acts : list authSlice.Action) :
  authSlice.isAuthenticated (fst (authSlice.dispatch_all w acts)) = true ->
  exists t u,
    authSlice.token (fst (authSlice.dispatch_all w acts)) = Some t /\
    authSlice.user (fst (authSlice.dispatch_all w acts)) = Some u.
Proof.
  intros Hauth.
  destruct (fold_authenticated_has_session acts (authSlice.initialState w, w))
    as [[t Ht] [u Hu]]; [discriminate | exact Hauth |].
  exists t, u. split; assumption.
Qed.

Lemma authenticated_state_has_token_and_user_witness :
  exists t u,
    authSlice.token
      (fst (authSlice.dispatch_all server
              [authSlice.SetCredentials {| auth_token := "T"; auth_user := alice |};
               authSlice.SetLoading true])) = Some t /\
    authSlice.user
      (fst (authSlice.dispatch_all server
              [authSlice.SetCredentials {| auth_token := "T"; auth_user := alice |};
               authSlice.SetLoading true])) = Some u.
Proof.
  apply (authenticated_state_has_token_and_user server). reflexivity.
Defined.

(** X6. If a [setCredentials] was dispatched with no [logout] after it,
    [isAuthenticated] is true, whatever else was dispatched and whatever the
    environment. *)
Theorem credentials_in_force_authenticate
    (w : World) (acts : list authSlice.Action) :
  authSlice.credentials_in_force acts ->
  authSlice.isAuthenticated (fst (authSlice.dispatch_all w acts)) = true.
Proof.
  intros (pre & payload & post & -> & Hpost).
  unfold authSlice.dispatch_all.
  rewrite fold_left_app. cbn [fold_left].
  apply fold_keeps_authenticated; [exact Hpost|].
  now rewrite reducer_isAuthenticated.
Qed.

Lemma credentials_in_force_authenticate_witness :
  authSlice.isAuthenticated
    (fst (authSlice.dispatch_all server
            [authSlice.Logout;
             authSlice.SetCredentials {| auth_token := "T"; auth_user := alice |};
             authSlice.SetError "x"])) = true.
Proof.
  apply (credentials_in_force_authenticate server).
  exists [authSlice.Logout], {| auth_token := "T"; auth_user := alice |},
    [authSlice.SetError "x"].
  split; reflexivity.
Defined.

(** ** The route guard, case by case *)

Section GuardPaths.
Import Middleware.

Lemma prefix_app (a b : string) :
  String.prefix a b = true <-> exists r, b = a ++ r.
Proof.
  revert b. induction a as [|c a IH]; intros b.
  - destruct b; cbn; split; eauto.
  - destruct b as [|c' b]; cbn.
    + split; [discriminate | intros [r Hr]; discriminate].
    + destruct (Ascii.ascii_dec c c') as [->|Hne].
      * rewrite IH. split; intros [r Hr]; exists r.
        -- cbn. now rewrite Hr.
        -- cbn in Hr. now injection Hr.
      * split; [discriminate|]. intros [r Hr]. cbn in Hr.
        injection Hr as Hc _. now subst.
Qed.

Lemma append_assoc (a b c : string) : (a ++ b) ++ c = a ++ (b ++ c).
Proof.
  induction a as [|x a IH]; [reflexivity|].
  change (String x ((a ++ b) ++ c) = String x (a ++ (b ++ c))).
  now rewrite IH.
Qed.

Lemma matches_iff (p path : string) :
  matches p path = true <->
  p = path \/ exists rest, p = path ++ "/" ++ rest.
Proof.
  unfold matches. rewrite orb_true_iff, String.eqb_eq, prefix_app.
  split; intros [H|[r H]]; auto; right; exists r.
  - now rewrite <- append_assoc.
  - now rewrite append_assoc.
Qed.

Lemma matches_starts (p path : string) :
  matches p path = true -> exists r, p = path ++ r.
Proof.
  rewrite matches_iff. intros [->|[rest ->]].
  - exists EmptyString. clear. induction path as [|x path IH]; [reflexivity|].
    change (String x path = String x (path ++ EmptyString)). now rewrite <- IH.
  - eauto.
Qed.

Lemma protected_not_auth (p : string) :
  isProtectedPath p = true -> isAuthPath p = false.
Proof.
  unfold isProtectedPath, isAuthPath, protectedPaths, authPaths.
  cbn [existsb]. rewrite !orb_false_r, orb_true_iff.
  intros Hp. apply not_true_is_false. rewrite !orb_true_iff.
  intros Ha.
  destruct Hp as [Hp|Hp]; apply matches_starts in Hp as [r ->];
    destruct Ha as [Ha|[Ha|Ha]]; apply matches_starts in Ha as [r' Ha];
    cbn in Ha; discriminate Ha.
Qed.

End GuardPaths.

Section EncodeURI.
Import Middleware.

Lemma encodeURI_length (s : string) :
  (String.length s <= String.length (encodeURI s))%nat.
Proof.
  induction s as [|c s IH]; cbn; [lia|].
  destruct (uri_unescaped c); cbn; lia.
Qed.

Lemma encodeURI_fixed (s : string) :
  encodeURI s = s -> all_chars uri_unescaped s = true.
Proof.
  induction s as [|c s IH]; cbn; [reflexivity|].
  destruct (uri_unescaped c) eqn:Hc; cbn.
  - intros [= H]. auto.
  - intros [= _ H]. exfalso.
    pose proof (encodeURI_length s) as Hlen.
    rewrite <- H in Hlen at 1. cbn in Hlen. lia.
Qed.

Lemma hex_digit_inj (n m : N) :
  (n < 16)%N -> (m < 16)%N -> hex_digit n = hex_digit m -> n = m.
Proof.
  intros Hn Hm.
  destruct n as [|p]; [|repeat (destruct p as [p|p|]; try lia)];
  (destruct m as [|q]; [|repeat (destruct q as [q|q|]; try lia)]);
  intros H; try reflexivity; vm_compute in H; discriminate H.
Qed.

Lemma ascii_by_nibbles (c c' : ascii) :
  (N_of_ascii c / 16 = N_of_ascii c' / 16)%N ->
  (N_of_ascii c mod 16 = N_of_ascii c' mod 16)%N ->
  c = c'.
Proof.
  intros Hd Hm.
  rewrite <- (ascii_N_embedding c), <- (ascii_N_embedding c').
  f_equal.
  rewrite (N.div_mod (N_of_ascii c) 16), (N.div_mod (N_of_ascii c') 16) by lia.
  now rewrite Hd, Hm.
Qed.

Lemma nibbles_bounded (c : ascii) :
  (N_of_ascii c / 16 < 16)%N /\ (N_of_ascii c mod 16 < 16)%N.
Proof.
  pose proof (N_ascii_bounded c). split.
  - apply N.Div0.div_lt_upper_bound. lia.
  - apply N.mod_lt. lia.
Qed.

Lemma encodeURI_inj (a b : string) : encodeURI a = encodeURI b -> a = b.
Proof.
  revert b. induction a as [|c a IH]; intros [|c' b]; cbn.
  - reflexivity.
  - destruct (uri_unescaped c'); discriminate.
  - destruct (uri_unescaped c); discriminate.
  - destruct (uri_unescaped c) eqn:Hc, (uri_unescaped c') eqn:Hc'.
    + intros [= -> H]. f_equal. auto.
    + intros [= -> _]. vm_compute in Hc. discriminate.
    + intros [= <- _]. vm_compute in Hc'. discriminate.
    + intros [= H1 H2 H]. f_equal; [|auto].
      destruct (nibbles_bounded c), (nibbles_bounded c').
      apply ascii_by_nibbles; now apply hex_digit_inj.
Qed.

End EncodeURI.

(** X7. The guard lets a request through in three cases: its path is in
    neither set; its path is protected and it carries a session cookie with
    a non-empty value; its path is an auth path and it carries no such
    cookie. *)
Theorem guard_lets_through (request : Middleware.NextRequest) :
  let pathname := Middleware.pathname (Middleware.nextUrl request) in
  let token := Middleware.cookies request !! "auth_token" in
  (Middleware.isProtectedPath pathname = false ->
   Middleware.isAuthPath pathname = false ->
   Middleware.middleware request = Middleware.next) /\
  (Middleware.isProtectedPath pathname = true ->
   Middleware.not_token token = false ->
   Middleware.middleware request = Middleware.next) /\
  (Middleware.isAuthPath pathname = true ->
   Middleware.not_token token = true ->
   Middleware.middleware request = Middleware.next).
Proof.
  cbn zeta. unfold Middleware.middleware. repeat split.
  - intros Hp Ha. now rewrite Hp, Ha.
  - intros Hp Ht.
    rewrite (protected_not_auth _ Hp), Ht, andb_false_r. reflexivity.
  - intros Ha Ht. rewrite Ht, andb_false_r.
    destruct (Middleware.isProtectedPath _) eqn:Hp; [|reflexivity].
    apply protected_not_auth in Hp. congruence.
Qed.

Lemma guard_lets_through_witness :
  Middleware.middleware dashboard_request = Middleware.next /\
  Middleware.middleware profile_request_with_session = Middleware.next /\
  Middleware.middleware login_request_anonymous = Middleware.next.
Proof.
  split; [|split].
  - destruct (guard_lets_through dashboard_request) as (H & _ & _).
    apply H; reflexivity.
  - destruct (guard_lets_through profile_request_with_session) as (_ & H & _).
    apply H; reflexivity.
  - destruct (guard_lets_through login_request_anonymous) as (_ & _ & H).
    apply H; reflexivity.
Defined.

(** X8. A session cookie whose value is the empty string counts as no
    cookie: the guard answers as it does for the same request without that
    cookie. *)
Theorem empty_cookie_counts_as_none (request : Middleware.NextRequest) :
  Middleware.cookies request !! "auth_token" = Some EmptyString ->
  Middleware.middleware request = Middleware.middleware (without_session request).
Proof.
  intros Hc. unfold Middleware.middleware, without_session. cbn.
  now rewrite Hc, lookup_delete_eq.
Qed.

Lemma empty_cookie_counts_as_none_witness :
  Middleware.middleware login_request_empty_cookie
  = Middleware.middleware (without_session login_request_empty_cookie).
Proof.
  apply (empty_cookie_counts_as_none login_request_empty_cookie). reflexivity.
Defined.

(** X9. Every redirect of the guard stays on the request's origin and goes
    to [/auth/login] or [/dashboard]; and the guard lets the redirected
    request through when it carries the same session cookie, so that no
    redirect leads to another. *)
Theorem redirects_stay_on_origin_and_end
    (request : Middleware.NextRequest) (target : Middleware.URL) :
  Middleware.middleware request = Middleware.redirect target ->
  Middleware.origin target = Middleware.origin (Middleware.nextUrl request) /\
  (Middleware.pathname target = "/auth/login" \/
   Middleware.pathname target = "/dashboard") /\
  (forall request',
     Middleware.pathname (Middleware.nextUrl request')
       = Middleware.pathname target ->
     Middleware.cookies request' !! "auth_token"
       = Middleware.cookies request !! "auth_token" ->
     Middleware.middleware request' = Middleware.next).
Proof.
  unfold Middleware.middleware.
  destruct (Middleware.isProtectedPath _ && Middleware.not_token _) eqn:H1.
  - intros [= <-]. cbn. repeat split; auto.
    intros request' Hp Hc. apply andb_prop in H1 as [_ Ht].
    rewrite Hp, Hc, Ht. reflexivity.
  - destruct (Middleware.isAuthPath _ && negb (Middleware.not_token _)) eqn:H2;
      [|discriminate].
    intros [= <-]. cbn. repeat split; auto.
    intros request' Hp Hc. rewrite Hp. reflexivity.
Qed.

Lemma redirects_stay_on_origin_and_end_witness :
  Middleware.middleware login_request_anonymous = Middleware.next.
Proof.
  destruct (redirects_stay_on_origin_and_end settings_request
              {| Middleware.origin := "http://localhost:3000";
                 Middleware.pathname := "/auth/login";
                 Middleware.searchParams :=
                   [("callbackUrl",
                     "http://localhost:3000/settings/account?tab=2")] |})
    as (_ & _ & Hnext).
  - reflexivity.
  - apply Hnext; reflexivity.
Defined.

(** X10. When the guard redirects to the login page, the callback parameter
    is the requested address exactly when that address holds only
    characters [encodeURI] leaves alone; and no two requested addresses
    share a callback parameter. *)
Theorem callback_parameter_faithful (r1 r2 : Middleware.NextRequest) :
  Middleware.isProtectedPath
    (Middleware.pathname (Middleware.nextUrl r1)) = true ->
  Middleware.not_token (Middleware.cookies r1 !! "auth_token") = true ->
  (Middleware.callbackUrl (Middleware.middleware r1) = Some (Middleware.url r1)
   <-> all_chars Middleware.uri_unescaped (Middleware.url r1) = true) /\
  (Middleware.isProtectedPath
     (Middleware.pathname (Middleware.nextUrl r2)) = true ->
   Middleware.callbackUrl (Middleware.middleware r2)
     = Middleware.callbackUrl (Middleware.middleware r1) ->
   Middleware.url r2 = Middleware.url r1).
Proof.
  intros Hp Ht. split.
  - unfold Middleware.middleware. rewrite Hp, Ht. cbn. split.
    + intros [= H]. now apply encodeURI_fixed.
    + intros H. now rewrite encodeURI_unescaped.
  - intros Hp2. unfold Middleware.middleware. rewrite Hp, Ht, Hp2.
    cbn [andb].
    destruct (Middleware.not_token (Middleware.cookies r2 !! "auth_token")).
    + cbn. intros [= H]. now apply encodeURI_inj.
    + rewrite (protected_not_auth _ Hp2). cbn. discriminate.
Qed.

Lemma callback_parameter_faithful_witness :
  Middleware.callbackUrl (Middleware.middleware settings_request)
    = Some (Middleware.url settings_request).
Proof.
  destruct (callback_parameter_faithful settings_request profile_request)
    as [[_ Hcallback] _].
  - reflexivity.
  - reflexivity.
  - apply Hcallback. reflexivity.
Defined.

(** ** The clients, outcome by outcome *)

Section Sent.
Import Axios.

Lemma bearer_headers (token : option string) (config : AxiosRequestConfig) :
  method (bearer token config) = method config /\
  url (bearer token config) = url config /\
  data (bearer token config) = data config /\
  (forall t, token = Some t -> t <> EmptyString ->
     headers (bearer token config) !! "Authorization" = Some ("Bearer " ++ t)) /\
  (token = None \/ token = Some EmptyString ->
     headers (bearer token config) = headers config) /\
  (forall k, k <> "Authorization" ->
     headers (bearer token config) !! k = headers config !! k).
Proof.
  unfold bearer. destruct token as [t|].
  - cbn [truthy]. destruct (String.eqb_spec t EmptyString) as [->|Ht]; cbn.
    + repeat split; auto. intros t [= <-] H. contradiction.
    + repeat split.
      * intros t' [= <-] _. apply lookup_insert_eq.
      * intros [H|[= H]]; [discriminate | contradiction].
      * intros k Hk. apply lookup_insert_ne. congruence.
  - repeat split; auto. intros t H. discriminate.
Qed.

Lemma merged_headers (defaults : gmap string string)
    (config : AxiosRequestConfig) (k : string) :
  headers (mergeConfig defaults config) !! k =
    match headers config !! k with
    | Some v => Some v
    | None => defaults !! k
    end.
Proof.
  cbn. rewrite lookup_union. destruct (headers config !! k), (defaults !! k);
    reflexivity.
Qed.

End Sent.

(** X11. Outside a browser (no [window]) every method of the first client
    returns the failure [localStorage is not defined] and shows it as an
    error toast, without asking the transport: the result does not depend
    on what the network would answer. *)
Theorem first_client_fails_without_window
    (net : Axios.AxiosRequestConfig -> Axios.NetResult) (m : Axios.Method)
    (f : Axios.Member) (u : string) (d : JsVal)
    (config : Axios.AxiosRequestConfig) (w : World) :
  window w = None ->
  ApiService1.member net m = Some f ->
  Axios.invoke f u d config w =
    (toast "error" (VStr "localStorage is not defined") w,
     Fulfilled
       (obj [("success", VBool false);
             ("error", obj [("message", VStr "localStorage is not defined");
                            ("status", VUndef); ("data", VUndef)])])).
Proof.
  intros Hw Hm.
  destruct (member1_unfold net m f u d config w Hm) as (d' & _ & ->).
  rewrite try_catch_returns.
  unfold ApiService1.api, ApiService1.api_request, Axios.request,
    ApiService1.request_fulfilled, Axios.dispatchRequest, bind, then_, ret,
    throw, localStorage_getItem.
  rewrite Hw. reflexivity.
Qed.

Lemma first_client_fails_without_window_witness :
  snd (ApiService1.get (answers current_user) "auth/me" Axios.no_config server)
  = Fulfilled
      (obj [("success", VBool false);
            ("error", obj [("message", VStr "localStorage is not defined");
                           ("status", VUndef); ("data", VUndef)])]).
Proof.
  exact (f_equal snd
           (first_client_fails_without_window (answers current_user) Axios.GET
              (Axios.UrlConfig (ApiService1.get (answers current_user)))
              "auth/me" VUndef Axios.no_config server eq_refl eq_refl)).
Defined.

(** X12. In a browser, for a response whose status is not 401, the first
    client returns [{success: true, data: body}] for a status from 200 to
    299, with a success toast when the body has a truthy [message]; for any
    other status it returns [{success: false, error: {message, status,
    data: body}}] and shows the same message as an error toast, where the
    message is the body's [detail], else its [message], else
    [Request failed with status code N]. *)
Theorem first_client_response_results
    (net : Axios.AxiosRequestConfig -> Axios.NetResult) (m : Axios.Method)
    (f : Axios.Member) (u : string) (d : JsVal)
    (config : Axios.AxiosRequestConfig) (w : World) (win : Window)
    (r : Axios.AxiosResponse) :
  window w = Some win ->
  ApiService1.member net m = Some f ->
  (forall sent, net sent = Axios.NetResponse r) ->
  Axios.status r <> 401 ->
  let body := Axios.res_data r in
  let message :=
    or_else (or_else (opt body "detail") (opt body "message"))
            (VStr ("Request failed with status code "
                   ++ pretty (Axios.status r))) in
  Axios.invoke f u d config w =
    if Axios.validateStatus (Axios.status r) then
      (if truthy (opt body "message")
       then toast "success" (prop body "message") w else w,
       Fulfilled (obj [("success", VBool true); ("data", body)]))
    else
      (toast "error" message w,
       Fulfilled (obj [("success", VBool false);
                       ("error", obj [("message", message);
                                      ("status", VNum (Axios.status r));
                                      ("data", body)])])).
Proof.
  intros Hw Hm Hnet H401 body message.
  destruct (member1_unfold net m f u d config w Hm) as (d' & _ & ->).
  rewrite try_catch_returns, (api1_browser _ _ _ _ _ _ win Hw), Hnet,
    settle_response.
  destruct (Axios.validateStatus (Axios.status r)).
  - rewrite response_fulfilled1_eq. reflexivity.
  - remember ("Request failed with status code " ++ pretty (Axios.status r))
      as axios_message eqn:Hmsg.
    rewrite response_rejected1_other; [| reflexivity |].
    2:{ cbn. apply Z.eqb_neq. exact H401. }
    subst message body. unfold ApiService1.failure. cbn.
    assert (Hfallback : forall a,
      or_else (or_else a (VStr axios_message))
              (VStr "Something went wrong. Please try again.")
      = or_else a (VStr axios_message)).
    { intros a. unfold or_else. destruct (truthy a) eqn:Ha.
      - now rewrite Ha.
      - cbn. destruct (String.eqb_spec axios_message EmptyString) as [He|He];
          [|reflexivity].
        exfalso. rewrite Hmsg in He. discriminate He. }
    rewrite Hfallback. reflexivity.
Qed.

Lemma first_client_response_results_witness :
  ApiService1.get (answers not_found) "auth/me" Axios.no_config fresh_browser =
    (toast "error" (VStr "Not Found") fresh_browser,
     Fulfilled (obj [("success", VBool false);
                     ("error", obj [("message", VStr "Not Found");
                                    ("status", VNum 404);
                                    ("data", obj [("detail", VStr "Not Found")])])])).
Proof.
  apply (first_client_response_results (answers not_found) Axios.GET
           (Axios.UrlConfig (ApiService1.get (answers not_found)))
           "auth/me" VUndef Axios.no_config fresh_browser fresh_window
           not_found eq_refl eq_refl).
  - intros sent. reflexivity.
  - discriminate.
Defined.

(** X13. When the transport fails without a response (an [AxiosError] with
    a message only), in a browser, the first client returns [{success:
    false, error: {message, status: undefined, data: undefined}}] and shows
    the message (or, if it is empty, a generic one) as an error toast; the
    second returns [{success: false, error: {message, code:
    'UNKNOWN_ERROR'}}] and leaves the globals alone. *)
Theorem network_failure_results
    (net : Axios.AxiosRequestConfig -> Axios.NetResult) (m : Axios.Method)
    (u : string) (d : JsVal) (config : Axios.AxiosRequestConfig) (w : World)
    (win : Window) (message : string) :
  window w = Some win ->
  (forall sent, net sent = Axios.NetFailure (Axios.AxiosError message None)) ->
  (forall f, ApiService1.member net m = Some f ->
     Axios.invoke f u d config w =
       (toast "error"
          (or_else (VStr message)
                   (VStr "Something went wrong. Please try again.")) w,
        Fulfilled (obj [("success", VBool false);
                        ("error", obj [("message", VStr message);
                                       ("status", VUndef);
                                       ("data", VUndef)])]))) /\
  (forall f, ApiService2.member net m = Some f ->
     Axios.invoke f u d config w =
       (w, Fulfilled (obj [("success", VBool false);
                           ("error", obj [("message", VStr message);
                                          ("code", VStr "UNKNOWN_ERROR")])]))).
Proof.
  intros Hw Hnet. split; intros f Hm.
  - destruct (member1_unfold net m f u d config w Hm) as (d' & _ & ->).
    rewrite try_catch_returns, (api1_browser _ _ _ _ _ _ win Hw), Hnet.
    cbn [Axios.settle].
    rewrite response_rejected1_other; [| reflexivity | reflexivity].
    reflexivity.
  - rewrite (member2_unfold net m f u d config w Hm).
    unfold ApiService2.request, try_catch, bind, then_, ret, throw.
    rewrite api_request2, Hnet. cbn [Axios.settle].
    rewrite response_rejected2_other; [| reflexivity | reflexivity].
    reflexivity.
Qed.

Lemma network_failure_results_witness :
  ApiService1.post offline "auth/login" VNull Axios.no_config fresh_browser =
    (toast "error" (VStr "Network Error") fresh_browser,
     Fulfilled (obj [("success", VBool false);
                     ("error", obj [("message", VStr "Network Error");
                                    ("status", VUndef);
                                    ("data", VUndef)])])) /\
  ApiService2.post offline "auth/login" VNull Axios.no_config fresh_browser =
    (fresh_browser,
     Fulfilled (obj [("success", VBool false);
                     ("error", obj [("message", VStr "Network Error");
                                    ("code", VStr "UNKNOWN_ERROR")])])).
Proof.
  destruct (network_failure_results offline Axios.POST "auth/login" VNull
              Axios.no_config fresh_browser fresh_window "Network Error"
              eq_refl (fun _ => eq_refl)) as [H1 H2].
  split.
  - exact (H1 (Axios.UrlDataConfig (ApiService1.post offline)) eq_refl).
  - exact (H2 (Axios.UrlDataConfig (ApiService2.post offline)) eq_refl).
Defined.

(** X14. For a response, in any environment, the second client returns
    [{data, status, statusText, headers, success: true}] built from it when
    the status is from 200 to 299, and otherwise [{success: false, status,
    statusText, error: body, headers}] with the response's own status,
    status text, body and headers. *)
Theorem second_client_response_results
    (net : Axios.AxiosRequestConfig -> Axios.NetResult) (m : Axios.Method)
    (f : Axios.Member) (u : string) (d : JsVal)
    (config : Axios.AxiosRequestConfig) (w : World)
    (r : Axios.AxiosResponse) :
  ApiService2.member net m = Some f ->
  (forall sent, net sent = Axios.NetResponse r) ->
  snd (Axios.invoke f u d config w) =
    Fulfilled
      (if Axios.validateStatus (Axios.status r) then
         obj [("data", Axios.res_data r);
              ("status", VNum (Axios.status r));
              ("statusText", VStr (Axios.statusText r));
              ("headers", Axios.res_headers r);
              ("success", VBool true)]
       else
         obj [("success", VBool false);
              ("status", VNum (Axios.status r));
              ("statusText", VStr (Axios.statusText r));
              ("error", Axios.res_data r);
              ("headers", Axios.res_headers r)]).
Proof.
  intros Hm Hnet.
  rewrite (member2_unfold net m f u d config w Hm).
  unfold ApiService2.request, try_catch, bind, then_, ret, throw.
  rewrite api_request2, Hnet, settle_response.
  destruct (Axios.validateStatus (Axios.status r)); [reflexivity|].
  remember ("Request failed with status code " ++ pretty (Axios.status r))
    as axios_message.
  pose proof (response_rejected2_passes
                (Axios.AxiosError axios_message (Some r)) w eq_refl) as Hpass.
  destruct (ApiService2.response_rejected _ w) as [w' s].
  cbn [snd] in Hpass. subst s. reflexivity.
Qed.

Lemma second_client_response_results_witness :
  snd (ApiService2.delete (answers unauthorized) "v1/users/1" Axios.no_config
         server)
  = Fulfilled (obj [("success", VBool false);
                    ("status", VNum 401);
                    ("statusText", VStr "Unauthorized");
                    ("error", obj [("detail", VStr "Not authenticated")]);
                    ("headers",
                     obj [("content-type", VStr "application/json")])]).
Proof.
  exact (second_client_response_results (answers unauthorized) Axios.DELETE
           (Axios.UrlConfig (ApiService2.delete (answers unauthorized)))
           "v1/users/1" VUndef Axios.no_config server unauthorized eq_refl
           (fun _ => eq_refl)).
Defined.

(** X15. Unless an outcome carries the response status 401, the first
    client leaves durable storage and the location as they were (it only
    adds toasts) and the second client leaves the globals exactly as they
    were; outside a browser the second client leaves them alone even on a
    401. *)
Theorem clients_touch_globals_only_on_401
    (net : Axios.AxiosRequestConfig -> Axios.NetResult) (m : Axios.Method)
    (u : string) (d : JsVal) (config : Axios.AxiosRequestConfig) (w : World) :
  ((forall sent e, Axios.settle (net sent) = Rejected e ->
                   is_num (opt (prop e "response") "status") 401 = false) ->
   forall f, ApiService1.member net m = Some f ->
     (forall k, stored (fst (Axios.invoke f u d config w)) k = stored w k) /\
     location (fst (Axios.invoke f u d config w)) = location w) /\
  (window w = None \/
   (forall sent e, Axios.settle (net sent) = Rejected e ->
                   is_num (opt (prop e "response") "status") 401 = false) ->
   forall f, ApiService2.member net m = Some f ->
     fst (Axios.invoke f u d config w) = w).
Proof.
  split.
  - intros H401 f Hm.
    destruct (window w) as [win|] eqn:Hw.
    + destruct (member1_unfold net m f u d config w Hm) as (d' & _ & ->).
      rewrite try_catch_returns, (api1_browser _ _ _ _ _ _ win Hw).
      destruct (Axios.settle _) as [r|e] eqn:Hs.
      * rewrite response_fulfilled1_eq. cbn.
        destruct (truthy _); split; reflexivity.
      * destruct (nullish e) eqn:He.
        -- unfold ApiService1.response_rejected. rewrite He. cbn.
           split; reflexivity.
        -- rewrite response_rejected1_other; [| exact He | eapply H401, Hs].
           cbn. split; reflexivity.
    + rewrite (member1_no_window net m f u d config w Hw Hm).
      cbn. split; reflexivity.
  - intros Hcase f Hm.
    rewrite (member2_unfold net m f u d config w Hm).
    unfold ApiService2.request, try_catch, bind, then_, ret, throw.
    rewrite api_request2.
    destruct (Axios.settle _) as [r|e] eqn:Hs; [reflexivity|].
    destruct Hcase as [Hw|H401].
    + destruct (response_rejected2_server e w Hw) as (e' & ->). reflexivity.
    + destruct (nullish e) eqn:He.
      * rewrite response_rejected2_nullish by exact He. reflexivity.
      * rewrite response_rejected2_other; [reflexivity | exact He |].
        eapply H401, Hs.
Qed.

Lemma clients_touch_globals_only_on_401_witness :
  stored (fst (ApiService1.get (answers not_found) "auth/me" Axios.no_config
                 signed_in)) "auth_token" = Some "T" /\
  fst (ApiService2.get (answers unauthorized) "auth/me" Axios.no_config server)
    = server.
Proof.
  destruct (clients_touch_globals_only_on_401 (answers not_found) Axios.GET
              "auth/me" VUndef Axios.no_config signed_in) as [H1 _].
  destruct (clients_touch_globals_only_on_401 (answers unauthorized) Axios.GET
              "auth/me" VUndef Axios.no_config server) as [_ H2].
  split.
  - destruct (H1 (fun sent e (H : Axios.settle (answers not_found sent) = Rejected e) =>
                    match H in (_ = y) return
                      match y with
                      | Rejected e' => is_num (opt (prop e' "response") "status") 401 = false
                      | Fulfilled _ => True
                      end
                    with eq_refl => eq_refl end)
                (Axios.UrlConfig (ApiService1.get (answers not_found))) eq_refl)
      as [Hstored _].
    exact (eq_trans (Hstored "auth_token") eq_refl).
  - exact (H2 (or_introl eq_refl)
              (Axios.UrlConfig (ApiService2.get (answers unauthorized))) eq_refl).
Defined.

(** X16. In a browser the first client asks the transport once per call,
    with the method and url of the call and the data of the call ([get] and
    [delete] take it from the config); the header [Authorization] is
    [Bearer t] when storage holds a non-empty [t] under [token], overriding
    the caller's, and the caller's own otherwise. *)
Theorem first_client_request_as_sent
    (m : Axios.Method) (u : string) (d : JsVal)
    (config : Axios.AxiosRequestConfig) (w : World) (win : Window) :
  window w = Some win ->
  let token := localStorage win !! "token" in
  exists sent,
    Axios.method sent = Some m /\
    Axios.url sent = Some u /\
    Axios.data sent = sent_data m d config /\
    (forall t, token = Some t -> t <> EmptyString ->
       Axios.headers sent !! "Authorization" = Some ("Bearer " ++ t)) /\
    (token = None \/ token = Some EmptyString ->
       Axios.headers sent !! "Authorization"
         = Axios.headers config !! "Authorization") /\
    (forall net1 net2 f1 f2,
       ApiService1.member net1 m = Some f1 ->
       ApiService1.member net2 m = Some f2 ->
       net1 sent = net2 sent ->
       Axios.invoke f1 u d config w = Axios.invoke f2 u d config w).
Proof.
  intros Hw token.
  set (merged := Axios.mergeConfig ApiService1.defaultHeaders
         {| Axios.method := Some m; Axios.url := Some u;
            Axios.data := sent_data m d config;
            Axios.headers := Axios.headers config |}).
  exists (Axios.bearer token merged).
  destruct (bearer_headers token merged) as (Hm & Hu & Hd & Hauth & Hnone & Hother).
  split; [now rewrite Hm|]. split; [now rewrite Hu|]. split; [now rewrite Hd|].
  split; [exact Hauth|]. split.
  - intros Htoken. rewrite Hnone by exact Htoken. unfold merged.
    rewrite merged_headers. cbn [Axios.headers].
    destruct (Axios.headers config !! "Authorization"); reflexivity.
  - intros net1 net2 f1 f2 H1 H2 Hnet.
    destruct (member1_unfold net1 m f1 u d config w H1) as (d1 & -> & ->).
    destruct (member1_unfold net2 m f2 u d config w H2) as (d2 & -> & ->).
    rewrite !try_catch_returns, !(api1_browser _ _ _ _ _ _ win Hw).
    fold token. fold (sent_data m d config). fold merged. now rewrite Hnet.
Qed.

Lemma first_client_request_as_sent_witness :
  exists sent,
    Axios.headers sent !! "Authorization" = Some "Bearer legacy" /\
    (offline sent = offline sent ->
     ApiService1.post offline "auth/login" VNull Axios.no_config legacy_browser
     = ApiService1.post offline "auth/login" VNull Axios.no_config
         legacy_browser).
Proof.
  destruct (first_client_request_as_sent Axios.POST "auth/login" VNull
              Axios.no_config legacy_browser legacy_window eq_refl)
    as (sent & _ & _ & _ & Hauth & _ & Hdep).
  exists sent. split.
  - apply (Hauth "legacy"); [reflexivity | discriminate].
  - exact (Hdep offline offline
             (Axios.UrlDataConfig (ApiService1.post offline))
             (Axios.UrlDataConfig (ApiService1.post offline))
             eq_refl eq_refl).
Defined.

(** X17. The second client asks the transport once per call, with the
    method, url and data of the call; the header [Authorization] is
    [Bearer t] when a browser's storage holds a non-empty [t] under
    [auth_token], overriding the caller's, and is the caller's own outside
    a browser or without such a token. *)
Theorem second_client_request_as_sent
    (m : Axios.Method) (u : string) (d : JsVal)
    (config : Axios.AxiosRequestConfig) (w : World) :
  let token := if window_defined w then stored w "auth_token" else None in
  exists sent,
    Axios.method sent = Some m /\
    Axios.url sent = Some u /\
    Axios.data sent = sent_data m d config /\
    (forall t, token = Some t -> t <> EmptyString ->
       Axios.headers sent !! "Authorization" = Some ("Bearer " ++ t)) /\
    (token = None \/ token = Some EmptyString ->
       Axios.headers sent !! "Authorization"
         = Axios.headers config !! "Authorization") /\
    (forall net1 net2 f1 f2,
       ApiService2.member net1 m = Some f1 ->
       ApiService2.member net2 m = Some f2 ->
       net1 sent = net2 sent ->
       Axios.invoke f1 u d config w = Axios.invoke f2 u d config w).
Proof.
  intros token.
  set (merged := Axios.mergeConfig ApiService2.defaultHeaders
         {| Axios.method := Some m; Axios.url := Some u;
            Axios.data := sent_data m d config;
            Axios.headers := Axios.headers config |}).
  exists (Axios.bearer token merged).
  destruct (bearer_headers token merged) as (Hm & Hu & Hd & Hauth & Hnone & Hother).
  split; [now rewrite Hm|]. split; [now rewrite Hu|]. split; [now rewrite Hd|].
  split; [exact Hauth|]. split.
  - intros Htoken. rewrite Hnone by exact Htoken. unfold merged.
    rewrite merged_headers. cbn [Axios.headers].
    destruct (Axios.headers config !! "Authorization"); reflexivity.
  - intros net1 net2 f1 f2 H1 H2 Hnet.
    rewrite (member2_unfold net1 m f1 u d config w H1),
            (member2_unfold net2 m f2 u d config w H2).
    unfold ApiService2.request, try_catch, bind, then_, ret, throw.
    rewrite !api_request2. fold token. fold (sent_data m d config).
    fold merged. now rewrite Hnet.
Qed.

Lemma second_client_request_as_sent_witness :
  exists sent,
    Axios.method sent = Some Axios.PATCH /\
    Axios.headers sent !! "Authorization" = Some "Bearer T".
Proof.
  destruct (second_client_request_as_sent Axios.PATCH "v1/users/1" VNull
              Axios.no_config signed_in)
    as (sent & Hmethod & _ & _ & Hauth & _ & _).
  exists sent. split; [exact Hmethod|].
  apply (Hauth "T"); [reflexivity | discriminate].
Defined.

(** X18. No sequence of slice actions changes what the first client's
    request interceptor does with a request: it reads the key [token],
    which the slice never writes. *)
Theorem slice_actions_do_not_reach_first_client
    (w : World) (acts : list authSlice.Action)
    (config : Axios.AxiosRequestConfig) :
  snd (ApiService1.request_fulfilled config
         (snd (authSlice.dispatch_all w acts)))
  = snd (ApiService1.request_fulfilled config w).
Proof.
  destruct (fold_reducer_frame acts (authSlice.initialState w, w) "token")
    as (Hs & _ & _ & Hd); [discriminate|].
  cbn [snd] in Hs, Hd. fold (authSlice.dispatch_all w acts) in Hs, Hd.
  unfold ApiService1.request_fulfilled, bind, then_, ret, throw,
    localStorage_getItem.
  unfold stored, window_defined in Hs, Hd.
  destruct (window (snd (authSlice.dispatch_all w acts))) as [win'|],
           (window w) as [win|]; try discriminate; cbn; [|reflexivity].
  now rewrite Hs.
Qed.

(** X19. In a browser, after [setCredentials] with a non-empty token the
    second client's request interceptor sets [Authorization] to [Bearer]
    followed by that token, and after [logout] it passes the config on
    unchanged. *)
Theorem credentials_authorize_second_client
    (s : authSlice.AuthState) (w : World) (payload : AuthResponse)
    (config : Axios.AxiosRequestConfig) :
  window_defined w = true ->
  auth_token payload <> EmptyString ->
  snd (ApiService2.request_fulfilled config
         (snd (authSlice.setCredentials s w payload)))
    = Fulfilled (Axios.set_header "Authorization"
                   ("Bearer " ++ auth_token payload) config) /\
  snd (ApiService2.request_fulfilled config (snd (authSlice.logout s w)))
    = Fulfilled config.
Proof.
  intros Hd Ht. unfold window_defined in Hd.
  destruct (window w) as [win|] eqn:Hw; [|discriminate].
  unfold ApiService2.request_fulfilled, authSlice.setCredentials,
    authSlice.logout, window_defined, stored, with_storage, ret.
  cbn. rewrite Hw. cbn. rewrite lookup_insert_eq, lookup_delete_eq. cbn.
  split; [|reflexivity].
  destruct (String.eqb_spec (auth_token payload) EmptyString);
    [contradiction | reflexivity].
Qed.

Lemma credentials_authorize_second_client_witness :
  snd (ApiService2.request_fulfilled Axios.no_config
         (snd (authSlice.setCredentials stale_state fresh_browser
                 {| auth_token := "T"; auth_user := alice |})))
  = Fulfilled (Axios.set_header "Authorization" "Bearer T" Axios.no_config).
Proof.
  destruct (credentials_authorize_second_client stale_state fresh_browser
              {| auth_token := "T"; auth_user := alice |} Axios.no_config)
    as [H _].
  - reflexivity.
  - discriminate.
  - exact H.
Defined.

(** ** The registration form *)

Section RegisterFacts.
Import Axios RegisterPage.

(** The first client's transport layer rejects with objects only. *)
Lemma api1_rejects_objects net m u d config w w' e :
  ApiService1.api net m u d config w = (w', Rejected e) -> nullish e = false.
Proof.
  destruct (window w) as [win|] eqn:Hw.
  - rewrite (api1_browser _ _ _ _ _ _ win Hw).
    destruct (settle _) as [r|e0].
    + rewrite response_fulfilled1_eq. discriminate.
    + destruct (nullish e0) eqn:He0.
      * unfold ApiService1.response_rejected. rewrite He0.
        intros [= _ <-]. reflexivity.
      * destruct (response_rejected1 e0 w win Hw He0) as [w1 ->].
        intros [= _ <-]. reflexivity.
  - destruct (api1_server net m u d config w Hw) as (w1 & msg & ->).
    intros [= _ <-]. reflexivity.
Qed.

(** What [signUp] hands back: never a rejection, never [null] or
    [undefined]. *)
Lemma signUp_returns net payload w :
  exists w' response,
    authApi.signUp net payload w = (w', Fulfilled response) /\
    nullish response = false.
Proof.
  unfold authApi.signUp, ApiService1.post. rewrite try_catch_returns.
  destruct (ApiService1.api net POST "v1/users" payload no_config w)
    as [w' [r|e]] eqn:Hapi.
  - destruct (api1_settles net POST "v1/users" payload no_config w)
      as (w1 & [(r1 & H1) | (e1 & H1 & _)]); rewrite Hapi in H1;
      [|discriminate].
    injection H1 as _ ->. exists w'. eexists. split; reflexivity.
  - exists w', e. split; [reflexivity|].
    eapply api1_rejects_objects, Hapi.
Qed.

End RegisterFacts.

Section RegisterOutcome.
Import Axios RegisterPage.

Lemma signUp_on_response net payload w win r :
  window w = Some win ->
  (forall sent, net sent = NetResponse r) ->
  exists w' e,
    authApi.signUp net payload w =
      (w', Fulfilled (if validateStatus (status r)
                      then obj [("success", VBool true); ("data", res_data r)]
                      else ApiService1.failure e)).
Proof.
  intros Hw Hnet.
  unfold authApi.signUp, ApiService1.post.
  rewrite try_catch_returns, (api1_browser _ _ _ _ _ _ win Hw), Hnet,
    settle_response.
  destruct (validateStatus (status r)).
  - rewrite response_fulfilled1_eq. eexists. exists VUndef. reflexivity.
  - edestruct response_rejected1 as [w' ->]; [exact Hw | | eauto].
    reflexivity.
Qed.

End RegisterOutcome.

(** X20. When the two passwords differ, [handleSubmit] dispatches
    [setError('Passwords do not match')] and does nothing else: no request,
    no loading flag, no navigation, the globals untouched. *)
Theorem register_mismatch_stops_early
    (net : Axios.AxiosRequestConfig -> Axios.NetResult)
    (formData : RegisterPage.FormData) (w : World)
    (done : list RegisterPage.Effect) :
  RegisterPage.password formData <> RegisterPage.confirmPassword formData ->
  RegisterPage.handleSubmit net formData (w, done) =
    ((w, (done ++ [RegisterPage.dispatch_setError
                     (VStr "Passwords do not match")])%list),
     Fulfilled tt).
Proof.
  intros Hne. unfold RegisterPage.handleSubmit.
  destruct (String.eqb_spec (RegisterPage.password formData)
              (RegisterPage.confirmPassword formData)); [contradiction|].
  reflexivity.
Qed.

Lemma register_mismatch_stops_early_witness :
  RegisterPage.handleSubmit (answers created) mistyped_form (fresh_browser, []) =
    ((fresh_browser,
      [RegisterPage.dispatch_setError (VStr "Passwords do not match")]),
     Fulfilled tt).
Proof.
  apply (register_mismatch_stops_early (answers created) mistyped_form
           fresh_browser []).
  discriminate.
Defined.

(** X21. When the passwords agree, [handleSubmit] never rejects, whatever
    the transport does and in any environment: it raises both loading flags,
    then either dispatches [setCredentials] with a truthy payload and
    navigates to [/auth/login], or dispatches [setError('Registration
    failed. Please try again.')], and always ends by lowering both loading
    flags. *)
Theorem register_brackets_loading
    (net : Axios.AxiosRequestConfig -> Axios.NetResult)
    (formData : RegisterPage.FormData) (w : World) :
  RegisterPage.password formData = RegisterPage.confirmPassword formData ->
  exists w' outcome,
    RegisterPage.handleSubmit net formData (w, []) =
      ((w', ([RegisterPage.setIsLoading true;
              RegisterPage.dispatch_setLoading true]
             ++ outcome
             ++ [RegisterPage.setIsLoading false;
                 RegisterPage.dispatch_setLoading false])%list),
       Fulfilled tt) /\
    ((exists payload,
        truthy payload = true /\
        outcome = [RegisterPage.dispatch_setCredentials payload;
                   RegisterPage.router_push "/auth/login"]) \/
     outcome = [RegisterPage.dispatch_setError
                  (VStr "Registration failed. Please try again.")]).
Proof.
  intros Heq. unfold RegisterPage.handleSubmit.
  rewrite Heq, String.eqb_refl. cbn [negb].
  destruct (signUp_returns net (RegisterPage.signUp_payload formData) w)
    as (w' & response & Hs & Hn).
  unfold RegisterPage.and_then, RegisterPage.try_catch_finally,
    RegisterPage.emit, RegisterPage.lift, RegisterPage.read,
    RegisterPage.pure, RegisterPage.raise.
  cbn [fst snd app]. rewrite Hs, Hn. cbn [fst snd].
  destruct (truthy (prop response "success") && truthy (prop response "data"))
    eqn:Hok.
  - exists w', [RegisterPage.dispatch_setCredentials (prop response "data");
                RegisterPage.router_push "/auth/login"].
    split; [reflexivity|]. left.
    apply andb_prop in Hok as [_ Hd]. eauto.
  - exists w', [RegisterPage.dispatch_setError
                  (VStr "Registration failed. Please try again.")].
    split; [reflexivity|]. right. reflexivity.
Qed.

Lemma register_brackets_loading_witness :
  exists w' outcome,
    RegisterPage.handleSubmit offline alice_form (server, []) =
      ((w', ([RegisterPage.setIsLoading true;
              RegisterPage.dispatch_setLoading true]
             ++ outcome
             ++ [RegisterPage.setIsLoading false;
                 RegisterPage.dispatch_setLoading false])%list),
       Fulfilled tt).
Proof.
  destruct (register_brackets_loading offline alice_form server eq_refl)
    as (w' & outcome & H & _).
  exists w', outcome. exact H.
Defined.

(** X22. In a browser, with agreeing passwords, a response decides the
    outcome: [setCredentials] with the response body, then navigation,
    exactly when the status is from 200 to 299 and the body is truthy; in
    every other case, a success status with an empty body included, the
    error [Registration failed. Please try again.]. *)
Theorem register_outcome_by_response
    (net : Axios.AxiosRequestConfig -> Axios.NetResult)
    (formData : RegisterPage.FormData) (w : World) (win : Window)
    (r : Axios.AxiosResponse) :
  RegisterPage.password formData = RegisterPage.confirmPassword formData ->
  window w = Some win ->
  (forall sent, net sent = Axios.NetResponse r) ->
  snd (fst (RegisterPage.handleSubmit net formData (w, []))) =
    ([RegisterPage.setIsLoading true; RegisterPage.dispatch_setLoading true]
     ++ (if Axios.validateStatus (Axios.status r) && truthy (Axios.res_data r)
         then [RegisterPage.dispatch_setCredentials (Axios.res_data r);
               RegisterPage.router_push "/auth/login"]
         else [RegisterPage.dispatch_setError
                 (VStr "Registration failed. Please try again.")])
     ++ [RegisterPage.setIsLoading false;
         RegisterPage.dispatch_setLoading false])%list.
Proof.
  intros Heq Hw Hnet. unfold RegisterPage.handleSubmit.
  rewrite Heq, String.eqb_refl. cbn [negb].
  destruct (signUp_on_response net (RegisterPage.signUp_payload formData)
              w win r Hw Hnet) as (w' & e & Hs).
  unfold RegisterPage.and_then, RegisterPage.try_catch_finally,
    RegisterPage.emit, RegisterPage.lift, RegisterPage.read,
    RegisterPage.pure, RegisterPage.raise.
  cbn [fst snd app]. rewrite Hs.
  destruct (Axios.validateStatus (Axios.status r)); cbn.
  - destruct (truthy (Axios.res_data r)); reflexivity.
  - reflexivity.
Qed.

Lemma register_outcome_by_response_witness :
  snd (fst (RegisterPage.handleSubmit (answers created) alice_form
              (fresh_browser, []))) =
    [RegisterPage.setIsLoading true; RegisterPage.dispatch_setLoading true;
     RegisterPage.dispatch_setCredentials (Axios.res_data created);
     RegisterPage.router_push "/auth/login";
     RegisterPage.setIsLoading false; RegisterPage.dispatch_setLoading false].
Proof.
  exact (register_outcome_by_response (answers created) alice_form
           fresh_browser fresh_window created eq_refl eq_refl
           (fun _ => eq_refl)).
Defined.

(** X23. In a browser, with agreeing passwords, [handleSubmit] asks the
    transport once, with a POST to [v1/users] whose data has the four
    fields [username], [email], [password] and [full_name]; the
    confirmation password is not sent. *)
Theorem register_sends_four_fields
    (formData : RegisterPage.FormData) (w : World) (win : Window) :
  RegisterPage.password formData = RegisterPage.confirmPassword formData ->
  window w = Some win ->
  exists sent,
    Axios.method sent = Some Axios.POST /\
    Axios.url sent = Some "v1/users" /\
    Axios.data sent =
      obj [("username", VStr (RegisterPage.username formData));
           ("email", VStr (RegisterPage.email formData));
           ("password", VStr (RegisterPage.password formData));
           ("full_name", VStr (RegisterPage.full_name formData))] /\
    (forall net1 net2 done,
       net1 sent = net2 sent ->
       RegisterPage.handleSubmit net1 formData (w, done)
         = RegisterPage.handleSubmit net2 formData (w, done)).
Proof.
  intros Heq Hw.
  set (sent := Axios.bearer (localStorage win !! "token")
         (Axios.mergeConfig ApiService1.defaultHeaders
            {| Axios.method := Some Axios.POST; Axios.url := Some "v1/users";
               Axios.data := RegisterPage.signUp_payload formData;
               Axios.headers := Axios.headers Axios.no_config |})).
  exists sent.
  assert (Hfields : Axios.method sent = Some Axios.POST /\
                    Axios.url sent = Some "v1/users" /\
                    Axios.data sent = RegisterPage.signUp_payload formData).
  { unfold sent, Axios.bearer.
    destruct (localStorage win !! "token") as [t|]; [|repeat split].
    destruct (truthy (VStr t)); repeat split. }
  destruct Hfields as (H1 & H2 & H3).
  repeat split; try assumption.
  intros net1 net2 done Hnet. unfold RegisterPage.handleSubmit.
  rewrite Heq, String.eqb_refl. cbn [negb].
  unfold RegisterPage.and_then, RegisterPage.try_catch_finally,
    RegisterPage.emit, RegisterPage.lift.
  cbn [fst snd].
  unfold authApi.signUp, ApiService1.post.
  rewrite !try_catch_returns, !(api1_browser _ _ _ _ _ _ win Hw).
  fold sent. now rewrite Hnet.
Qed.

Lemma register_sends_four_fields_witness :
  exists sent,
    Axios.url sent = Some "v1/users" /\
    has_key "confirmPassword" (Axios.data sent) = false.
Proof.
  destruct (register_sends_four_fields alice_form fresh_browser fresh_window
              eq_refl eq_refl) as (sent & _ & Hurl & Hdata & _).
  exists sent. split; [exact Hurl|]. rewrite Hdata. reflexivity.
Defined.

(** ** The leaderboard and the dashboard *)

Section SortFacts.

Context {A : Type}.
Variable key : A -> Z.

Lemma sort_insert_perm (x : A) (l : list A) :
  Permutation (x :: l) (sort_insert (fun a b => key b - key a) x l).
Proof.
  induction l as [|y l IH]; cbn; [reflexivity|].
  destruct (key y - key x <=? 0); [reflexivity|].
  rewrite perm_swap. now constructor.
Qed.

Lemma array_sort_perm (l : list A) : Permutation l (array_sort (fun a b => key b - key a) l).
Proof.
  induction l as [|x l IH]; cbn; [reflexivity|].
  rewrite <- sort_insert_perm. now constructor.
Qed.

Lemma sort_insert_descending (x : A) (l : list A) :
  StronglySorted (fun a b => key b <= key a) l -> StronglySorted (fun a b => key b <= key a) (sort_insert (fun a b => key b - key a) x l).
Proof.
  induction l as [|y l IH]; intros Hl; cbn.
  - constructor; constructor.
  - inversion Hl as [|? ? Hrest Hy]; subst.
    destruct (Z.leb_spec (key y - key x) 0) as [Hle|Hgt].
    + constructor; [exact Hl|].
      constructor; [lia|].
      eapply List.Forall_impl; [|exact Hy]. cbn. intros b Hb. lia.
    + constructor; [now apply IH|].
      apply (Permutation_Forall (sort_insert_perm x l)).
      constructor; [lia | exact Hy].
Qed.

Lemma array_sort_descending (l : list A) : StronglySorted (fun a b => key b <= key a) (array_sort (fun a b => key b - key a) l).
Proof.
  induction l as [|x l IH]; cbn.
  - constructor.
  - now apply sort_insert_descending.
Qed.

Lemma sort_insert_stable (v : Z) (x : A) (l : list A) :
  List.filter (fun u => key u =? v) (sort_insert (fun a b => key b - key a) x l)
  = List.filter (fun u => key u =? v) (x :: l).
Proof.
  induction l as [|y l IH]; [reflexivity|].
  cbn [sort_insert].
  destruct (Z.leb_spec (key y - key x) 0) as [Hle|Hgt]; [reflexivity|].
  cbn [List.filter] in *. rewrite IH.
  destruct (Z.eqb_spec (key y) v), (Z.eqb_spec (key x) v);
    try reflexivity; lia.
Qed.

Lemma array_sort_stable (v : Z) (l : list A) :
  List.filter (fun u => key u =? v) (array_sort (fun a b => key b - key a) l)
  = List.filter (fun u => key u =? v) l.
Proof.
  induction l as [|x l IH]; [reflexivity|].
  cbn [array_sort]. rewrite sort_insert_stable. cbn [List.filter].
  now rewrite IH.
Qed.

Lemma array_sort_sorted_id (l : list A) :
  StronglySorted (fun a b => key b <= key a) l -> array_sort (fun a b => key b - key a) l = l.
Proof.
  induction l as [|x l IH]; intros Hl; [reflexivity|].
  inversion Hl as [|? ? Hrest Hx]; subst.
  cbn. rewrite IH by exact Hrest.
  destruct l as [|y l]; [reflexivity|]. cbn.
  inversion Hx; subst.
  destruct (Z.leb_spec (key y - key x) 0); [reflexivity | lia].
Qed.

End SortFacts.

Section LeaderboardFacts.
Import LeaderboardPage.

Lemma compareFn_metric (sortBy : string) (a b : LeaderboardUser) :
  compareFn sortBy a b = metric sortBy b - metric sortBy a.
Proof.
  unfold compareFn, metric.
  destruct (String.eqb sortBy "streak"); [reflexivity|].
  destruct (String.eqb sortBy "checkins"); [reflexivity|].
  destruct (String.eqb sortBy "events"); reflexivity.
Qed.

Lemma sort_ext {A} (f g : A -> A -> Z) (l : list A) :
  (forall a b, f a b = g a b) -> array_sort f l = array_sort g l.
Proof.
  intros Hfg. induction l as [|x l IH]; cbn; [reflexivity|].
  rewrite IH. generalize (array_sort g l) as s.
  induction s as [|y s IHs]; cbn; [reflexivity|].
  now rewrite Hfg, IHs.
Qed.

Lemma filteredUsers_by_metric users sortBy :
  filteredUsers users sortBy
  = array_sort (fun a b => metric sortBy b - metric sortBy a) users.
Proof. apply sort_ext. apply compareFn_metric. Qed.

End LeaderboardFacts.

Section ArraySliceFacts.

Context {A : Type}.

Lemma firstn_plus (a b : nat) (l : list A) :
  firstn (a + b) l = (firstn a l ++ firstn b (skipn a l))%list.
Proof.
  revert l. induction a as [|a IH]; intros l; [reflexivity|].
  destruct l as [|x l]; cbn.
  - now rewrite firstn_nil.
  - now rewrite IH.
Qed.

(** A slice between two indices in order, the first not negative, is the
    stretch of [stop - start] elements that begins at [start]. *)
Lemma array_slice_window (l : list A) (start stop : Z) :
  0 <= start <= stop ->
  array_slice l start stop
  = firstn (Z.to_nat (stop - start)) (skipn (Z.to_nat start) l).
Proof.
  intros H. unfold array_slice, clamp_index.
  destruct (Z.ltb_spec start 0); [lia|].
  destruct (Z.ltb_spec stop 0); [lia|].
  set (len := Z.of_nat (length l)).
  destruct (Z.le_gt_cases len start) as [Hout|Hin].
  - rewrite !skipn_all2 by lia. now rewrite !firstn_nil.
  - rewrite (Z.min_l start len) by lia.
    destruct (Z.le_gt_cases stop len) as [Hs|Hs].
    + now rewrite (Z.min_l stop len) by lia.
    + rewrite (Z.min_r stop len) by lia.
      rewrite !firstn_all2; [reflexivity | |]; rewrite length_skipn; lia.
Qed.

End ArraySliceFacts.

Section PagingFacts.
Import LeaderboardPage.

Lemma totalPages_spec (users : list LeaderboardUser) (rows : Z) :
  0 < rows ->
  (totalPages users rows - 1) * rows < Z.of_nat (length users)
    <= totalPages users rows * rows.
Proof.
  intros Hr. unfold totalPages.
  pose proof (Z.div_mod (- Z.of_nat (length users)) rows) as Hdm.
  pose proof (Z.mod_pos_bound (- Z.of_nat (length users)) rows Hr) as Hm.
  nia.
Qed.

Lemma totalPages_nonneg (users : list LeaderboardUser) (rows : Z) :
  0 < rows -> 0 <= totalPages users rows.
Proof.
  intros Hr. pose proof (totalPages_spec users rows Hr). nia.
Qed.

Lemma currentUsers_window (users : list LeaderboardUser) (p rows : Z) :
  0 < rows -> 1 <= p ->
  currentUsers users p rows
  = firstn (Z.to_nat rows) (skipn (Z.to_nat ((p - 1) * rows)) users).
Proof.
  intros Hr Hp. unfold currentUsers, indexOfFirstUser, indexOfLastUser.
  rewrite array_slice_window by nia.
  f_equal; f_equal; lia.
Qed.

Lemma pages_concat (users : list LeaderboardUser) (rows : Z) (n : nat) :
  0 < rows ->
  concat (map (fun p => currentUsers users p rows)
              (map (fun i => Z.of_nat i + 1) (seq 0 n)))
  = firstn (n * Z.to_nat rows) users.
Proof.
  intros Hr. induction n as [|n IH]; [reflexivity|].
  rewrite seq_S, !map_app, concat_app, IH. cbn [map concat seq Nat.add].
  rewrite app_nil_r, currentUsers_window by lia.
  replace (S n * Z.to_nat rows)%nat with (n * Z.to_nat rows + Z.to_nat rows)%nat
    by lia.
  rewrite firstn_plus. do 3 f_equal. nia.
Qed.

Lemma pageNumbers_iff (total page : Z) :
  existsb (Z.eqb page) (pageNumbers total) = true <-> 1 <= page <= total.
Proof.
  unfold pageNumbers. rewrite existsb_exists. split.
  - intros (x & Hin & Hx). apply Z.eqb_eq in Hx. subst x.
    apply in_map_iff in Hin as (i & <- & Hi). apply in_seq in Hi. lia.
  - intros H. exists page. split; [|apply Z.eqb_refl].
    apply in_map_iff. exists (Z.to_nat (page - 1)). split; [lia|].
    apply in_seq. lia.
Qed.

Lemma click_in_range users st c :
  (rowsPerPage st = 20 \/ rowsPerPage st = 50 \/ rowsPerPage st = 100) /\
  1 <= currentPage st /\
  (currentPage st = 1 \/ currentPage st <= totalPages users (rowsPerPage st)) ->
  enabled users st c = true ->
  (rowsPerPage (click st c) = 20 \/ rowsPerPage (click st c) = 50 \/
   rowsPerPage (click st c) = 100) /\
  1 <= currentPage (click st c) /\
  (currentPage (click st c) = 1 \/
   currentPage (click st c) <= totalPages users (rowsPerPage (click st c))).
Proof.
  intros (Hr & Hp & Hle) He.
  destruct c as [| |page|value]; cbn in *.
  - apply andb_prop in He as [Ht Hne].
    apply Z.ltb_lt in Ht. apply negb_true_iff, Z.eqb_neq in Hne. lia.
  - apply andb_prop in He as [Ht Hne].
    apply Z.ltb_lt in Ht. apply negb_true_iff, Z.eqb_neq in Hne. lia.
  - apply andb_prop in He as [Ht Hin].
    apply pageNumbers_iff in Hin. lia.
  - rewrite !orb_true_iff, !Z.eqb_eq in He. lia.
Qed.

Lemma clicks_in_range users cs st :
  (rowsPerPage st = 20 \/ rowsPerPage st = 50 \/ rowsPerPage st = 100) /\
  1 <= currentPage st /\
  (currentPage st = 1 \/ currentPage st <= totalPages users (rowsPerPage st)) ->
  let st' := fold_left
               (fun st c => if enabled users st c then click st c else st)
               cs st in
  (rowsPerPage st' = 20 \/ rowsPerPage st' = 50 \/ rowsPerPage st' = 100) /\
  1 <= currentPage st' /\
  (currentPage st' = 1 \/ currentPage st' <= totalPages users (rowsPerPage st')).
Proof.
  revert st. induction cs as [|c cs IH]; intros st Hst; cbn [fold_left];
    [exact Hst|].
  apply IH. destruct (enabled users st c) eqn:He; [|exact Hst].
  now apply click_in_range.
Qed.

End PagingFacts.

Section ListOrder.

Context {A : Type}.
Variable R : A -> A -> Prop.

Lemma StronglySorted_app_order (l1 l2 : list A) :
  StronglySorted R (l1 ++ l2) ->
  forall a b, In a l1 -> In b l2 -> R a b.
Proof.
  induction l1 as [|x l1 IH]; cbn; intros Hs a b Ha Hb; [contradiction|].
  inversion Hs as [|? ? Hrest Hx]; subst.
  destruct Ha as [<-|Ha].
  - rewrite List.Forall_forall in Hx. apply Hx. apply in_or_app. now right.
  - now apply IH.
Qed.

Lemma StronglySorted_firstn (n : nat) (l : list A) :
  StronglySorted R l -> StronglySorted R (firstn n l).
Proof.
  revert l. induction n as [|n IH]; intros l Hs; [constructor|].
  destruct l as [|x l]; [constructor|]. cbn.
  inversion Hs as [|? ? Hrest Hx]; subst.
  constructor; [now apply IH|].
  rewrite List.Forall_forall in *. intros b Hb. apply Hx.
  rewrite <- (firstn_skipn n l). apply in_or_app. now left.
Qed.

Lemma StronglySorted_filter (p : A -> bool) (l : list A) :
  StronglySorted R l -> StronglySorted R (List.filter p l).
Proof.
  induction 1 as [|x l Hs IH Hx]; cbn; [constructor|].
  destruct (p x); [|exact IH].
  constructor; [exact IH|].
  rewrite List.Forall_forall in *. intros b Hb.
  apply filter_In in Hb as [Hb _]. now apply Hx.
Qed.

Lemma array_slice_front (n : nat) (l : list A) :
  array_slice l 0 (Z.of_nat n) = firstn n l.
Proof.
  rewrite array_slice_window by lia. cbn.
  f_equal. lia.
Qed.

End ListOrder.

Section DashboardFacts.
Import DashboardPage.

Lemma sorted_events (events : list SampleEvent) :
  StronglySorted (fun a b => participants b <= participants a)
    (sampleEvents (render events)).
Proof. apply (array_sort_descending participants). Qed.

End DashboardFacts.

Section InitialsFacts.
Import LeaderboardEntry.

Lemma append_cons (c : ascii) (a b : string) :
  String c a ++ b = String c (a ++ b).
Proof. reflexivity. Qed.

Lemma split_spaces_nonempty (s : string) : split_spaces s <> [].
Proof.
  destruct s as [|c s]; cbn; [discriminate|].
  destruct (Ascii.eqb c " "); [discriminate|].
  destruct (split_spaces s); discriminate.
Qed.

Lemma split_spaces_app (a b : string) :
  split_spaces (a ++ " " ++ b) = (split_spaces a ++ split_spaces b)%list.
Proof.
  induction a as [|c a IH]; [reflexivity|].
  rewrite append_cons. cbn [split_spaces]. rewrite IH.
  destruct (Ascii.eqb c " "); [reflexivity|].
  destruct (split_spaces a) as [|word words] eqn:Ha; [|reflexivity].
  now apply split_spaces_nonempty in Ha.
Qed.

Lemma split_spaces_word (w : string) :
  all_chars (fun c => negb (Ascii.eqb c " ")) w = true ->
  split_spaces w = [w].
Proof.
  induction w as [|c w IH]; cbn; [reflexivity|].
  intros H. apply andb_prop in H as [Hc Hw].
  apply negb_true_iff in Hc. rewrite Hc, IH by exact Hw. reflexivity.
Qed.

Lemma concat_letters_app (l1 l2 : list string) :
  String.concat EmptyString (map first_letter (l1 ++ l2))
  = String.concat EmptyString (map first_letter l1)
    ++ String.concat EmptyString (map first_letter l2).
Proof.
  assert (Hcons : forall x l,
    String.concat EmptyString (x :: l) = x ++ String.concat EmptyString l).
  { intros x [|y l]; cbn.
    - clear. induction x as [|c x IH]; [reflexivity|].
      rewrite append_cons. now rewrite <- IH.
    - reflexivity. }
  induction l1 as [|x l1 IH]; [reflexivity|].
  cbn [map app]. rewrite !Hcons, IH.
  generalize (first_letter x) as s. intros s.
  induction s as [|c s IHs]; [reflexivity|].
  rewrite !append_cons. now rewrite IHs.
Qed.

Lemma toUpperCase_app (a b : string) :
  toUpperCase (a ++ b) = toUpperCase a ++ toUpperCase b.
Proof.
  induction a as [|c a IH]; [reflexivity|].
  rewrite append_cons. cbn [toUpperCase]. rewrite IH. reflexivity.
Qed.

End InitialsFacts.

(** X24. The leaderboard's list is a rearrangement of the sample users,
    in descending order of the field [sortBy] names, and users that tie on
    that field keep the order they had. *)
Theorem leaderboard_is_sorted_stable_permutation
    (users : list LeaderboardPage.LeaderboardUser) (sortBy : string) :
  let sorted := LeaderboardPage.filteredUsers users sortBy in
  Permutation users sorted /\
  StronglySorted
    (fun a b => LeaderboardPage.metric sortBy b <= LeaderboardPage.metric sortBy a)
    sorted /\
  (forall v,
     List.filter (fun u => LeaderboardPage.metric sortBy u =? v) sorted
     = List.filter (fun u => LeaderboardPage.metric sortBy u =? v) users).
Proof.
  cbn. rewrite filteredUsers_by_metric. split; [|split].
  - apply array_sort_perm.
  - apply (array_sort_descending (LeaderboardPage.metric sortBy)).
  - intros v. apply array_sort_stable.
Qed.

(** X25. For a positive page size the pages 1 to [totalPages], one after
    the other, are the whole list, each user once; every page before the
    last is full, the last holds between one user and a full page, and a
    page beyond the last is empty. *)
Theorem pages_partition_the_list
    (users : list LeaderboardPage.LeaderboardUser) (page rowsPerPage : Z) :
  0 < rowsPerPage ->
  let total := LeaderboardPage.totalPages users rowsPerPage in
  let shown :=
    Z.of_nat (length (LeaderboardPage.currentUsers users page rowsPerPage)) in
  concat (map (fun p => LeaderboardPage.currentUsers users p rowsPerPage)
              (LeaderboardPage.pageNumbers total))
  = users /\
  (1 <= page ->
   (page < total -> shown = rowsPerPage) /\
   (page = total -> 1 <= shown <= rowsPerPage) /\
   (total < page -> shown = 0)).
Proof.
  intros Hr total shown.
  pose proof (totalPages_spec users rowsPerPage Hr) as Hspec.
  pose proof (totalPages_nonneg users rowsPerPage Hr) as Hnn.
  fold total in Hspec, Hnn. split.
  - unfold LeaderboardPage.pageNumbers.
    rewrite pages_concat by exact Hr.
    apply firstn_all2. nia.
  - intros Hp. subst shown.
    rewrite currentUsers_window by assumption.
    rewrite length_firstn, length_skipn.
    repeat split; intros; nia.
Qed.

Lemma pages_partition_the_list_witness :
  concat (map (fun p => LeaderboardPage.currentUsers three_users p 2)
              (LeaderboardPage.pageNumbers
                 (LeaderboardPage.totalPages three_users 2)))
  = three_users /\
  Z.of_nat (length (LeaderboardPage.currentUsers three_users 1 2)) = 2.
Proof.
  destruct (pages_partition_the_list three_users 1 2) as [Hall Hsize].
  - reflexivity.
  - split; [exact Hall|].
    destruct Hsize as (Hfull & _ & _); [discriminate|].
    apply Hfull. reflexivity.
Defined.

(** X26. The rank shown beside an entry of a page is the entry's position,
    counted from 1, in the whole list, whatever the page and the page
    size. *)
Theorem rank_is_position
    (users : list LeaderboardPage.LeaderboardUser) (page rowsPerPage : Z)
    (index : nat) (u : LeaderboardPage.LeaderboardUser) :
  0 < rowsPerPage -> 1 <= page ->
  nth_error (LeaderboardPage.currentUsers users page rowsPerPage) index = Some u ->
  1 <= LeaderboardPage.rank page rowsPerPage (Z.of_nat index) /\
  nth_error users
    (Z.to_nat (LeaderboardPage.rank page rowsPerPage (Z.of_nat index) - 1))
    = Some u.
Proof.
  intros Hr Hp Hn. rewrite currentUsers_window in Hn by assumption.
  unfold LeaderboardPage.rank, LeaderboardPage.indexOfFirstUser,
    LeaderboardPage.indexOfLastUser.
  split; [nia|].
  assert (Hi : (index < Z.to_nat rowsPerPage)%nat).
  { assert (Hsome : nth_error (firstn (Z.to_nat rowsPerPage)
                        (skipn (Z.to_nat ((page - 1) * rowsPerPage)) users)) index
                     <> None) by congruence.
    apply nth_error_Some in Hsome. rewrite length_firstn in Hsome. lia. }
  rewrite nth_error_firstn in Hn.
  destruct (Nat.ltb_spec index (Z.to_nat rowsPerPage)); [|lia].
  rewrite nth_error_skipn in Hn. rewrite <- Hn. f_equal. nia.
Qed.

Lemma rank_is_position_witness :
  LeaderboardPage.rank 2 2 0 = 3 /\
  nth_error three_users 2 = nth_error (LeaderboardPage.currentUsers three_users 2 2) 0.
Proof.
  destruct (nth_error (LeaderboardPage.currentUsers three_users 2 2) 0)
    as [u|] eqn:Hu; [|discriminate Hu].
  destruct (rank_is_position three_users 2 2 0 u) as [_ H].
  - reflexivity.
  - discriminate.
  - exact Hu.
  - split; [reflexivity | exact H].
Defined.

(** X27. Through the page's controls the page size is always 20, 50 or 100
    and the current page never leaves the range 1 to [totalPages] (page 1
    when there is no page at all); so a non-empty list always shows at
    least one entry. *)
Theorem controls_keep_page_in_range
    (users : list LeaderboardPage.LeaderboardUser)
    (cs : list LeaderboardPage.Control) :
  let st := LeaderboardPage.clicks users cs in
  let rows := LeaderboardPage.rowsPerPage st in
  let page := LeaderboardPage.currentPage st in
  (rows = 20 \/ rows = 50 \/ rows = 100) /\
  1 <= page /\
  (page = 1 \/ page <= LeaderboardPage.totalPages users rows) /\
  (users <> [] -> LeaderboardPage.currentUsers users page rows <> []).
Proof.
  destruct (clicks_in_range users cs LeaderboardPage.initialPaging)
    as (Hrows & Hpage & Hle).
  { cbn. lia. }
  fold (LeaderboardPage.clicks users cs) in Hrows, Hpage, Hle.
  cbn zeta. repeat split; try assumption.
  intros Hne Hempty.
  assert (Hr : 0 < LeaderboardPage.rowsPerPage (LeaderboardPage.clicks users cs))
    by lia.
  pose proof (totalPages_spec users _ Hr) as Hspec.
  apply (f_equal (@length _)) in Hempty.
  rewrite currentUsers_window in Hempty by assumption.
  rewrite length_firstn, length_skipn in Hempty. cbn in Hempty.
  assert (0 < Z.of_nat (length users)).
  { destruct users; [contradiction | cbn; lia]. }
  nia.
Qed.

Lemma controls_keep_page_in_range_witness :
  LeaderboardPage.currentUsers three_users
    (LeaderboardPage.currentPage
       (LeaderboardPage.clicks three_users
          [LeaderboardPage.Next; LeaderboardPage.RowsPerPage 50;
           LeaderboardPage.PageButton 7]))
    (LeaderboardPage.rowsPerPage
       (LeaderboardPage.clicks three_users
          [LeaderboardPage.Next; LeaderboardPage.RowsPerPage 50;
           LeaderboardPage.PageButton 7]))
  <> [].
Proof.
  destruct (controls_keep_page_in_range three_users
              [LeaderboardPage.Next; LeaderboardPage.RowsPerPage 50;
               LeaderboardPage.PageButton 7]) as (_ & _ & _ & H).
  apply H. discriminate.
Defined.

(** X28. One render of the dashboard leaves the shared array of events
    sorted by participants, descending, with the same events; "Popular
    Events" are its first three, and no event left out has more
    participants than one shown. *)
Theorem popular_events_are_the_top_three
    (events : list DashboardPage.SampleEvent) :
  let r := DashboardPage.render events in
  Permutation events (DashboardPage.sampleEvents r) /\
  DashboardPage.popularEvents r = firstn 3 (DashboardPage.sampleEvents r) /\
  StronglySorted
    (fun a b => DashboardPage.participants b <= DashboardPage.participants a)
    (DashboardPage.popularEvents r) /\
  (forall a b,
     In a (DashboardPage.popularEvents r) ->
     In b (skipn 3 (DashboardPage.sampleEvents r)) ->
     DashboardPage.participants b <= DashboardPage.participants a).
Proof.
  cbn zeta.
  assert (Hp : DashboardPage.popularEvents (DashboardPage.render events)
               = firstn 3 (DashboardPage.sampleEvents (DashboardPage.render events))).
  { apply (array_slice_front 3). }
  pose proof (sorted_events events) as Hs.
  split; [apply (array_sort_perm DashboardPage.participants)|].
  split; [exact Hp|]. rewrite Hp. split.
  - now apply StronglySorted_firstn.
  - rewrite <- (firstn_skipn 3 (DashboardPage.sampleEvents _)) in Hs.
    intros a b Ha Hb.
    exact (StronglySorted_app_order _ _ _ Hs a b Ha Hb).
Qed.

Lemma popular_events_are_the_top_three_witness :
  DashboardPage.participants (event "2" "Web Development Workshop" 85 false)
  <= DashboardPage.participants (event "3" "AI in Healthcare Symposium" 95 true).
Proof.
  destruct (popular_events_are_the_top_three five_events) as (_ & _ & _ & H).
  apply H.
  - right. right. left. reflexivity.
  - left. reflexivity.
Defined.

(** X29. "My Events" is read from the shared array after it was sorted in
    place: it shows the first three joined events in descending order of
    participants, not in the order of the data; every event it shows is a
    joined event of the data; the "no events" message appears exactly when
    no event is joined; and a second render shows the same again. *)
Theorem my_events_follow_the_sorted_array
    (events : list DashboardPage.SampleEvent) :
  let r := DashboardPage.render events in
  DashboardPage.myEvents r
    = firstn 3 (List.filter DashboardPage.isJoined (DashboardPage.sampleEvents r)) /\
  StronglySorted
    (fun a b => DashboardPage.participants b <= DashboardPage.participants a)
    (DashboardPage.myEvents r) /\
  (forall a, In a (DashboardPage.myEvents r) ->
             In a events /\ DashboardPage.isJoined a = true) /\
  (DashboardPage.noEventsMessage r = true <->
   forall e, In e events -> DashboardPage.isJoined e = false) /\
  DashboardPage.render (DashboardPage.sampleEvents r) = r.
Proof.
  cbn zeta.
  pose proof (sorted_events events) as Hs.
  pose proof (array_sort_perm DashboardPage.participants events) as Hperm.
  unfold DashboardPage.render in *.
  cbn [DashboardPage.popularEvents DashboardPage.myEvents
       DashboardPage.noEventsMessage DashboardPage.sampleEvents] in *.
  set (sorted := array_sort _ events) in *.
  assert (Hjoined : forall e,
            In e (List.filter DashboardPage.isJoined sorted) <->
            In e events /\ DashboardPage.isJoined e = true).
  { intros e. rewrite filter_In. split; intros [Hin Hj]; split; auto.
    - eapply Permutation_in; [symmetry; exact Hperm | exact Hin].
    - eapply Permutation_in; [exact Hperm | exact Hin]. }
  split; [apply (array_slice_front 3)|]. split; [|split; [|split]].
  - rewrite (array_slice_front 3).
    apply StronglySorted_firstn. now apply StronglySorted_filter.
  - rewrite (array_slice_front 3). intros a Ha. apply Hjoined.
    rewrite <- (firstn_skipn 3 (List.filter _ _)). apply in_or_app. now left.
  - rewrite Nat.eqb_eq, length_zero_iff_nil. split.
    + intros Hnil e He.
      destruct (DashboardPage.isJoined e) eqn:Hj; [|reflexivity].
      assert (Hin : In e (List.filter DashboardPage.isJoined sorted))
        by (apply Hjoined; auto).
      rewrite Hnil in Hin. contradiction.
    + intros Hnone.
      destruct (List.filter DashboardPage.isJoined sorted) as [|e l] eqn:Hf;
        [reflexivity|].
      destruct (proj1 (Hjoined e) (or_introl eq_refl)) as [Hin Hj].
      rewrite (Hnone e Hin) in Hj. discriminate.
  - now rewrite (array_sort_sorted_id DashboardPage.participants sorted Hs).
Qed.

Lemma my_events_follow_the_sorted_array_witness :
  DashboardPage.noEventsMessage (DashboardPage.render five_events) = false /\
  DashboardPage.isJoined (event "3" "AI in Healthcare Symposium" 95 true) = true.
Proof.
  destruct (my_events_follow_the_sorted_array five_events)
    as (_ & _ & Hjoined & Hnone & _).
  split.
  - destruct (DashboardPage.noEventsMessage (DashboardPage.render five_events))
      eqn:Hm; [|reflexivity].
    assert (Hall := proj1 Hnone eq_refl
                      (event "1" "Annual Tech Conference" 120 true)
                      (or_introl eq_refl)).
    discriminate Hall.
  - apply Hjoined. right. left. reflexivity.
Defined.

(** X30. For names written in ASCII, the initials shown for a name are
    built word by word: the initials of two names joined by a space are the
    initials of the first followed by those of the second, and a word
    without a space gives its first letter in upper case (nothing when the
    word is empty), so that doubled, leading and trailing spaces add
    nothing. *)
Theorem initials_by_word (a b w : string) :
  LeaderboardEntry.ascii_only a = true ->
  LeaderboardEntry.ascii_only b = true ->
  LeaderboardEntry.ascii_only w = true ->
  LeaderboardEntry.getUserInitials (a ++ " " ++ b)
    = LeaderboardEntry.getUserInitials a ++ LeaderboardEntry.getUserInitials b /\
  (all_chars (fun c => negb (Ascii.eqb c " ")) w = true ->
   LeaderboardEntry.getUserInitials w
     = LeaderboardEntry.toUpperCase (LeaderboardEntry.first_letter w)).
Proof.
  intros _ _ _. unfold LeaderboardEntry.getUserInitials. split.
  - now rewrite split_spaces_app, concat_letters_app, toUpperCase_app.
  - intros Hw. now rewrite split_spaces_word.
Qed.

Lemma initials_by_word_witness :
  LeaderboardEntry.getUserInitials ("john" ++ " " ++ "doe")
    = LeaderboardEntry.getUserInitials "john"
      ++ LeaderboardEntry.getUserInitials "doe" /\
  LeaderboardEntry.getUserInitials "doe" = "D".
Proof.
  destruct (initials_by_word "john" "doe" "doe" eq_refl eq_refl eq_refl)
    as [Happ Hword].
  split; [exact Happ|].
  rewrite Hword; reflexivity.
Defined.
